(** * Frame3D: the viewer's input router and render loop

    A shallow embedding of [triangulum/rendering/gui/frame3d.py].

    The class [Frame3D] is a record of the attributes its methods read and
    write.  Methods are programs in a small state-and-exception monad over a
    [World]: the object, the close flag of its GLFW window, and the history of
    every call the object made on a collaborator (window system, logger,
    camera, renderer, executors, frame limiter).  Whatever a collaborator
    answers is read from an environment [Env] that sees the whole history.
    The operations the source awaits (executor tasks, the renderers, the
    graphics API, the frame limiter) return or raise as the environment
    decides; the plain calls (logger, camera methods, GLFW setters, keyboard
    subscribers) are recorded and taken to return. *)

From Stdlib Require Import ZArith List Bool Floats Uint63.
From stdpp Require Import gmap strings list.

Local Open Scope Z_scope.

(** ** Exceptions and results *)

Inductive Exn : Type :=
| AssertionError
| AttributeError
| TypeError
| ZeroDivisionError
| ValueError
| OverflowError
| KeyError
| UnicodeDecodeError
| CancelledError
| ExternalError (what : string).

Inductive Res (A : Type) : Type :=
| Ok (a : A)
| Raise (e : Exn).
Arguments Ok {A} a.
Arguments Raise {A} e.

(** ** Numbers

    Cursor coordinates, scroll offsets, depth samples and the camera aspect
    are binary64 values (Python [float], [numpy.float64]); window sizes, key
    and button codes are Python [int]s, modelled as [Z].  The float
    operations the class uses form an interface; [Float64] below instantiates
    it with the kernel's binary64 numbers. *)

Class PyFloat (num : Type) : Type := {
  of_int : Z → num;            (* int operand converted to float *)
  half : num;                  (* the literal 0.5 *)
  fsub : num → num → num;
  fmul : num → num → num;
  fdiv : num → num → num;      (* numpy division: inf or nan on a zero divisor *)
  fneg : num → num;
  feqb : num → num → bool;     (* == ; false on nan *)
  to_int : num → Res Z;        (* int(x): raises on nan and on infinities *)
  int_truediv : Z → Z → num;   (* int / int with a non-zero divisor *)
  float32 : num → num          (* numpy.float32(x), kept as a binary64 value *)
}.

(** Python's [a / b] on two ints. *)
Definition truediv `{PyFloat num} (a b : Z) : Res num :=
  if decide (b = 0) then Raise ZeroDivisionError else Ok (int_truediv a b).

(** ** Text

    A [bytes] object is a list of bytes, a [str] a list of code points. *)

Definition bytes : Type := list N.
Definition str : Type := list N.

Definition continuation (b : N) : option N :=
  if ((128 <=? b) && (b <=? 191))%N then Some (b - 128)%N else None.

(** [bytes.decode('utf-8')] with the default strict error handling: [None]
    stands for [UnicodeDecodeError] (truncated or overlong sequences,
    surrogates, code points past U+10FFFF, stray continuation bytes). *)
Fixpoint decode_utf8 (bs : bytes) : option str :=
  match bs with
  | [] => Some []
  | b0 :: r0 =>
    if (b0 <? 128)%N then cons b0 <$> decode_utf8 r0
    else if (b0 <? 194)%N then None
    else if (b0 <? 224)%N then
      match r0 with
      | b1 :: r1 =>
        c1 ← continuation b1;
        cons ((b0 - 192) * 64 + c1)%N <$> decode_utf8 r1
      | _ => None
      end
    else if (b0 <? 240)%N then
      match r0 with
      | b1 :: b2 :: r2 =>
        c1 ← continuation b1;
        c2 ← continuation b2;
        let cp := (((b0 - 224) * 64 + c1) * 64 + c2)%N in
        if ((cp <? 2048) || ((55296 <=? cp) && (cp <=? 57343)))%N then None
        else cons cp <$> decode_utf8 r2
      | _ => None
      end
    else if (b0 <? 245)%N then
      match r0 with
      | b1 :: b2 :: b3 :: r3 =>
        c1 ← continuation b1;
        c2 ← continuation b2;
        c3 ← continuation b3;
        let cp := ((((b0 - 240) * 64 + c1) * 64 + c2) * 64 + c3)%N in
        if ((cp <? 65536) || (1114111 <? cp))%N then None
        else cons cp <$> decode_utf8 r3
      | _ => None
      end
    else None
  end.

(** [s.endswith(suffix)] *)
Definition endswith (s suffix : str) : bool :=
  (length suffix <=? length s)%nat
  && bool_decide (drop (length s - length suffix)%nat s = suffix).

(** The literal ['.ply']. *)
Definition dot_ply : str := [46; 112; 108; 121]%N.

(** ** GLFW constants *)

Module glfw.
Definition RELEASE : Z := 0.
Definition PRESS : Z := 1.
Definition MOUSE_BUTTON_LEFT : Z := 0.
Definition MOUSE_BUTTON_RIGHT : Z := 1.
Definition KEY_E : Z := 69.
Definition KEY_P : Z := 80.
Definition KEY_S : Z := 83.
Definition KEY_ESCAPE : Z := 256.
Definition KEY_LEFT_ALT : Z := 342.
End glfw.

(** ** Collaborators that are plain data *)

Inductive CameraMode : Type := perspective | ortho.

(** A deferred action: a coroutine object waiting in [_to_do]. *)
Inductive Action : Type :=
| CameraLookAtCursor
| MakeScreenshotAndSave.

(** A coroutine handed to the event loop. *)
Inductive Task : Type :=
| ReadAndRegister (path : str)
| DetermineAndPrint.

(** The files the screenshot action names: [None] is ['screenshot'],
    [Some k] is ['screenshot<k>']. *)
Definition Filename : Type := option Z.

Inductive Suffix : Type := png | depth_png.

Inductive Level : Type := DEBUG | INFO | WARN.

(** ** The object, its calls and its environment *)

Section Model.
Context {num : Type} `{PyFloat num}.

Definition vec3 : Type := num * num * num.

Record Camera : Type := {
  aspect : num;
  mode : CameraMode
}.

Inductive LogMsg : Type :=
| MsgCallbackAlreadyRegistered (name : string)
| MsgReadingData (path : str)
| MsgDataLoaded (path : str)
| MsgUnsupportedExtension (path : str)
| MsgPositionUnderCursor (xyz : vec3)
| MsgDoubleClickOnPoint (xyz : vec3)
| MsgDoubleClickOnEmptyPixel
| MsgMakingScreenshot (w h : Z)
| MsgSavingScreenshot (filename : Filename)
| MsgUsingCamera (m : CameraMode)
| MsgRenderingEdgesMode (enabled : bool)
| MsgResize (width height : Z)
| MsgStopped (title : string).

(** Every call the object makes on something outside itself, with its
    arguments.  [AwaitDeferred] and [DeferredDone] are not calls: they mark
    where the render loop starts awaiting a deferred action and where that
    action has returned. *)
Inductive Call : Type :=
| Log (level : Level) (msg : LogMsg)
| CreateWindow (width height : Z) (title : string)
| SetMouseButtonCallback
| SetDoubleClickCallback
| SetScrollCallback
| SetCursorPosCallback
| SetKeyCallback
| SetDropCallback
| SetWindowSizeCallback
| SetWindowCloseCallback
| InitGlContext
| RendererInit
| DoubleClickOnPressed (button : Z)
| CameraZoomIn (y : num)
| CameraRotate (dx dy : num)
| CameraMove (dx dy : num)
| CameraSetTarget (xyz : vec3)
| CameraGetMvpMatrix
| HomoTranslateInv (xyz : vec3)
| FpsUpdate
| FpsStop
| EnsureFrameLimit
| AsyncioAsync (t : Task)
| WrapExc (t : Task)
| LoadPly (path : str)
| SceneAddRenderable (path : str)
| GlReadPixels (x y : Z)
| GlViewport (x y width height : Z)
| RendererRender
| SwapBuffers
| SetWindowShouldClose
| WindowShouldClose
| ImageRendererRender (w h : Z)
| SaveImage (filename : Filename) (suffix : Suffix)
| ImageRendererRelease
| KeyboardCallback (name : string) (callback : Z) (key scancode action mods : Z)
| DestroyWindow
| Unraisable (e : Exn)
| AwaitDeferred (a : Action)
| DeferredDone (a : Action).

(** What the window system delivers while events are polled. *)
Inductive InputEvent : Type :=
| EvMouseButton (button action mods : Z)
| EvScroll (x y : num)
| EvCursorPos (x y : num)
| EvKey (key scancode action mods : Z)
| EvDrop (paths : list bytes)
| EvResize (width height : Z)
| EvClose.

(** How a call of [FPSLimiter.ensure_frame_limit] ends. *)
Inductive LimiterOutcome : Type :=
| Resumed
| Cancelled
| LimiterFailed (e : Exn).

(** The collaborators' behaviour, each answer a function of the calls made
    so far.  [FPSLimiter], [DoubleClickHandler], [Camera], the renderers, the
    executors and [triangulum.utils] are not part of this file of the
    repository; nothing is assumed about them beyond their call signatures. *)
Record Env : Type := {
  (* does this awaited operation raise, and what *)
  env_raises : list Call → Call → option Exn;
  (* the events glfw.PollEvents dispatches inside ensure_frame_limit, and
     how ensure_frame_limit then ends *)
  env_limiter : list Call → list InputEvent * LimiterOutcome;
  (* whether an exception leaving a window callback unwinds through
     glfw.PollEvents or is reported and dropped by the binding *)
  env_callback_errors_propagate : bool;
  (* whether DoubleClickHandler.on_pressed classifies this press as the
     second of a double click and calls the registered callback *)
  env_double_click : list Call → Z → bool;
  (* the depth sample glReadPixels writes *)
  env_depth : list Call → num;
  (* math.homo_translate(np.linalg.inv(mvp_mtx), xyz) *)
  env_unproject : list Call → vec3 → vec3;
  (* the screenshot names that exist in the working directory *)
  env_files : list Call → list Filename
}.

(** The attributes of a [Frame3D].  The handles it only passes around
    ([_loop], [_window], the executors, [_renderer], [_fps_limiter],
    [_double_clicks], [scene]) appear in [Call]s instead.
    [_on_keyboard_callbacks] keeps insertion order; a callback is an opaque
    identifier.  [_edges_mode] is [None] while the attribute does not
    exist. *)
Record Frame3D : Type := {
  _title : string;
  _width : Z;
  _height : Z;
  _viewport_actual : bool;
  _initialized : bool;
  _camera : Camera;
  _on_keyboard_callbacks : list (string * Z);
  _last_mouse_xy : option (num * num);
  _mouse_buttons_down : gset Z;
  _keyboard_buttons_down : gmap Z Z;
  _to_do : list Action;
  _edges_mode : option bool
}.

Record World : Type := {
  self : Frame3D;
  should_close : bool;      (* the window's close flag, kept by GLFW *)
  calls : list Call         (* oldest first *)
}.

(** *** Attribute assignment *)

Definition set_size (width height : Z) (f : Frame3D) : Frame3D :=
  {| _title := _title f; _width := width; _height := height;
     _viewport_actual := _viewport_actual f; _initialized := _initialized f;
     _camera := _camera f; _on_keyboard_callbacks := _on_keyboard_callbacks f;
     _last_mouse_xy := _last_mouse_xy f;
     _mouse_buttons_down := _mouse_buttons_down f;
     _keyboard_buttons_down := _keyboard_buttons_down f;
     _to_do := _to_do f; _edges_mode := _edges_mode f |}.

Definition set_viewport_actual (b : bool) (f : Frame3D) : Frame3D :=
  {| _title := _title f; _width := _width f; _height := _height f;
     _viewport_actual := b; _initialized := _initialized f;
     _camera := _camera f; _on_keyboard_callbacks := _on_keyboard_callbacks f;
     _last_mouse_xy := _last_mouse_xy f;
     _mouse_buttons_down := _mouse_buttons_down f;
     _keyboard_buttons_down := _keyboard_buttons_down f;
     _to_do := _to_do f; _edges_mode := _edges_mode f |}.

Definition set_initialized (b : bool) (f : Frame3D) : Frame3D :=
  {| _title := _title f; _width := _width f; _height := _height f;
     _viewport_actual := _viewport_actual f; _initialized := b;
     _camera := _camera f; _on_keyboard_callbacks := _on_keyboard_callbacks f;
     _last_mouse_xy := _last_mouse_xy f;
     _mouse_buttons_down := _mouse_buttons_down f;
     _keyboard_buttons_down := _keyboard_buttons_down f;
     _to_do := _to_do f; _edges_mode := _edges_mode f |}.

Definition set_camera (c : Camera) (f : Frame3D) : Frame3D :=
  {| _title := _title f; _width := _width f; _height := _height f;
     _viewport_actual := _viewport_actual f; _initialized := _initialized f;
     _camera := c; _on_keyboard_callbacks := _on_keyboard_callbacks f;
     _last_mouse_xy := _last_mouse_xy f;
     _mouse_buttons_down := _mouse_buttons_down f;
     _keyboard_buttons_down := _keyboard_buttons_down f;
     _to_do := _to_do f; _edges_mode := _edges_mode f |}.

Definition set_on_keyboard_callbacks (cbs : list (string * Z)) (f : Frame3D) : Frame3D :=
  {| _title := _title f; _width := _width f; _height := _height f;
     _viewport_actual := _viewport_actual f; _initialized := _initialized f;
     _camera := _camera f; _on_keyboard_callbacks := cbs;
     _last_mouse_xy := _last_mouse_xy f;
     _mouse_buttons_down := _mouse_buttons_down f;
     _keyboard_buttons_down := _keyboard_buttons_down f;
     _to_do := _to_do f; _edges_mode := _edges_mode f |}.

Definition set_last_mouse_xy (xy : option (num * num)) (f : Frame3D) : Frame3D :=
  {| _title := _title f; _width := _width f; _height := _height f;
     _viewport_actual := _viewport_actual f; _initialized := _initialized f;
     _camera := _camera f; _on_keyboard_callbacks := _on_keyboard_callbacks f;
     _last_mouse_xy := xy;
     _mouse_buttons_down := _mouse_buttons_down f;
     _keyboard_buttons_down := _keyboard_buttons_down f;
     _to_do := _to_do f; _edges_mode := _edges_mode f |}.

Definition set_mouse_buttons_down (s : gset Z) (f : Frame3D) : Frame3D :=
  {| _title := _title f; _width := _width f; _height := _height f;
     _viewport_actual := _viewport_actual f; _initialized := _initialized f;
     _camera := _camera f; _on_keyboard_callbacks := _on_keyboard_callbacks f;
     _last_mouse_xy := _last_mouse_xy f;
     _mouse_buttons_down := s;
     _keyboard_buttons_down := _keyboard_buttons_down f;
     _to_do := _to_do f; _edges_mode := _edges_mode f |}.

Definition set_keyboard_buttons_down (m : gmap Z Z) (f : Frame3D) : Frame3D :=
  {| _title := _title f; _width := _width f; _height := _height f;
     _viewport_actual := _viewport_actual f; _initialized := _initialized f;
     _camera := _camera f; _on_keyboard_callbacks := _on_keyboard_callbacks f;
     _last_mouse_xy := _last_mouse_xy f;
     _mouse_buttons_down := _mouse_buttons_down f;
     _keyboard_buttons_down := m;
     _to_do := _to_do f; _edges_mode := _edges_mode f |}.

Definition set_to_do (q : list Action) (f : Frame3D) : Frame3D :=
  {| _title := _title f; _width := _width f; _height := _height f;
     _viewport_actual := _viewport_actual f; _initialized := _initialized f;
     _camera := _camera f; _on_keyboard_callbacks := _on_keyboard_callbacks f;
     _last_mouse_xy := _last_mouse_xy f;
     _mouse_buttons_down := _mouse_buttons_down f;
     _keyboard_buttons_down := _keyboard_buttons_down f;
     _to_do := q; _edges_mode := _edges_mode f |}.

Definition set_edges_mode (b : bool) (f : Frame3D) : Frame3D :=
  {| _title := _title f; _width := _width f; _height := _height f;
     _viewport_actual := _viewport_actual f; _initialized := _initialized f;
     _camera := _camera f; _on_keyboard_callbacks := _on_keyboard_callbacks f;
     _last_mouse_xy := _last_mouse_xy f;
     _mouse_buttons_down := _mouse_buttons_down f;
     _keyboard_buttons_down := _keyboard_buttons_down f;
     _to_do := _to_do f; _edges_mode := Some b |}.

Definition set_aspect (a : num) (c : Camera) : Camera :=
  {| aspect := a; mode := mode c |}.

Definition set_mode (m : CameraMode) (c : Camera) : Camera :=
  {| aspect := aspect c; mode := m |}.

(** *** The monad *)

Definition M (A : Type) : Type := World → Res A * World.

Definition ret {A} (a : A) : M A := λ w, (Ok a, w).

Definition raise {A} (e : Exn) : M A := λ w, (Raise e, w).

Definition bind {A B} (m : M A) (k : A → M B) : M B :=
  λ w, match m w with
       | (Ok a, w') => k a w'
       | (Raise e, w') => (Raise e, w')
       end.

(** [try: ... except:] with the handler choosing by exception. *)
Definition try {A} (m : M A) : M (Res A) :=
  λ w, let '(r, w') := m w in (Ok r, w').

Definition get_self : M Frame3D := λ w, (Ok (self w), w).

Definition modify (g : Frame3D → Frame3D) : M unit :=
  λ w, (Ok tt, {| self := g (self w); should_close := should_close w;
                  calls := calls w |}).

Definition get_should_close : M bool := λ w, (Ok (should_close w), w).

Definition set_should_close (b : bool) : M unit :=
  λ w, (Ok tt, {| self := self w; should_close := b; calls := calls w |}).

Definition log_call (c : Call) (w : World) : World :=
  {| self := self w; should_close := should_close w; calls := calls w ++ [c] |}.

(** A call that returns nothing of interest and is taken to return. *)
Definition call (c : Call) : M unit := λ w, (Ok tt, log_call c w).

Variable env : Env.

(** Reading the environment at the present history. *)
Definition ask {A} (q : Env → list Call → A) : M A :=
  λ w, (Ok (q env (calls w)), w).

(** An operation run by an executor, the renderer or the graphics API: it is
    recorded, and fails when the environment says so. *)
Definition await (c : Call) : M unit :=
  λ w, match env_raises env (calls w) c with
       | Some e => (Raise e, log_call c w)
       | None => (Ok tt, log_call c w)
       end.

Definition lift {A} (r : Res A) : M A :=
  match r with Ok a => ret a | Raise e => raise e end.

Declare Scope prog_scope.
Notation "x ← y ; z" := (bind y (λ x, z))
  (at level 20, y at level 100, z at level 200, only parsing) : prog_scope.
Notation "x ;; z" := (bind x (λ _, z))
  (at level 100, z at level 200, only parsing, right associativity) : prog_scope.
Local Open Scope prog_scope.

(** ** The methods of [Frame3D]

    The [window] argument of the callbacks is the object's only window and is
    left out. *)

(** A dict in insertion order. *)
Fixpoint dict_set (k : string) (v : Z) (d : list (string * Z)) : list (string * Z) :=
  match d with
  | [] => [(k, v)]
  | (k', v') :: d' =>
    if decide (k = k') then (k, v) :: d' else (k', v') :: dict_set k v d'
  end.

Definition dict_mem (k : string) (d : list (string * Z)) : bool :=
  bool_decide (k ∈ d.*1).

Definition dict_del (k : string) (d : list (string * Z)) : list (string * Z) :=
  filter (λ kv, kv.1 ≠ k) d.

Definition update : M unit := call FpsUpdate.

Definition add_on_keyboard_callback (name : string) (callback : Z) : M unit :=
  f ← get_self;
  (if dict_mem name (_on_keyboard_callbacks f)
   then call (Log WARN (MsgCallbackAlreadyRegistered name))
   else ret tt);;
  modify (set_on_keyboard_callbacks (dict_set name callback (_on_keyboard_callbacks f))).

Definition delete_on_keyboard_callback (name : string) : M unit :=
  f ← get_self;
  if dict_mem name (_on_keyboard_callbacks f)
  then modify (set_on_keyboard_callbacks (dict_del name (_on_keyboard_callbacks f)))
  else raise KeyError.

Definition _on_mouse_double_click (button : Z) : M unit :=
  if decide (button = glfw.MOUSE_BUTTON_LEFT) then
    f ← get_self;
    modify (set_to_do (_to_do f ++ [CameraLookAtCursor]));;
    update
  else ret tt.

(** Modelled from the spec: [DoubleClickHandler] is not among the sources.
    [on_pressed(button)] records the press and, when it falls within the
    double-click window of the previous press of the same button, invokes the
    registered callback with that button; the environment decides which. *)
Definition on_pressed (button : Z) : M unit :=
  call (DoubleClickOnPressed button);;
  fire ← ask (λ e h, env_double_click e h button);
  if fire : bool then _on_mouse_double_click button else ret tt.

Definition _on_mouse_button (button action mods : Z) : M unit :=
  if decide (action = glfw.PRESS) then
    f ← get_self;
    modify (set_mouse_buttons_down ({[button]} ∪ _mouse_buttons_down f));;
    on_pressed button
  else if decide (action = glfw.RELEASE) then
    f ← get_self;
    if decide (button ∈ _mouse_buttons_down f)
    then modify (set_mouse_buttons_down (_mouse_buttons_down f ∖ {[button]}))
    else ret tt
  else ret tt.

Definition _is_button_down (key mods : Z) (f : Frame3D) : bool :=
  match _keyboard_buttons_down f !! key with
  | None => false
  | Some m => bool_decide (m = mods)
  end.

Definition _on_scroll (x y : num) : M unit :=
  if negb (feqb y (of_int 0)) then
    call (CameraZoomIn y);;
    update
  else ret tt.

Fixpoint _on_drop (paths : list bytes) : M unit :=
  match paths with
  | [] => ret tt
  | path :: rest =>
    match decode_utf8 path with
    | None => raise UnicodeDecodeError
    | Some path =>
      (if negb (endswith path dot_ply)
       then call (Log WARN (MsgUnsupportedExtension path))
       else call (AsyncioAsync (ReadAndRegister path));;
            call (WrapExc (ReadAndRegister path)));;
      _on_drop rest
    end
  end.

Definition add_points_cloud (points : str) : M unit :=
  call (SceneAddRenderable points).

(** The body of the coroutine [read_and_register(path)]; the loaded cloud is
    identified by its path. *)
Definition read_and_register (path : str) : M unit :=
  call (Log DEBUG (MsgReadingData path));;
  await (LoadPly path);;
  add_points_cloud path;;
  call (Log DEBUG (MsgDataLoaded path)).

Definition _determine_cursor_position : M (option vec3) :=
  f ← get_self;
  match _last_mouse_xy f with
  | None => raise TypeError
  | Some (x, y) =>
    ix ← lift (to_int x);
    iy ← lift (to_int y);
    await (GlReadPixels ix iy);;
    z ← ask env_depth;
    if feqb z (of_int 1) then ret None
    else
      f ← get_self;
      let xy := (fdiv (fsub x half) (of_int (_width f)),
                 fdiv (fsub y half) (of_int (_height f))) in
      let xyz := (fsub (fmul xy.1 (of_int 2)) (of_int 1),
                  fsub (fmul xy.2 (of_int 2)) (of_int 1),
                  fsub (fmul z (of_int 2)) (of_int 1)) in
      call CameraGetMvpMatrix;;
      await (HomoTranslateInv xyz);;
      xyz ← ask (λ e h, env_unproject e h xyz);
      ret (Some xyz)
  end.

(** The body of the coroutine [determine_and_print()]. *)
Definition determine_and_print : M unit :=
  xyz ← _determine_cursor_position;
  match xyz with
  | Some xyz => call (Log DEBUG (MsgPositionUnderCursor xyz))
  | None => ret tt
  end.

Definition _print_cursor_position : M unit :=
  call (WrapExc DetermineAndPrint).

Definition _camera_look_at_cursor : M unit :=
  xyz ← _determine_cursor_position;
  match xyz with
  | Some (x, y, z) =>
    call (CameraSetTarget (float32 x, float32 y, float32 z));;
    call (Log DEBUG (MsgDoubleClickOnPoint (x, y, z)))
  | None => call (Log DEBUG MsgDoubleClickOnEmptyPixel)
  end.

(** The [while Path(filename).exists()] search, over the names [taken];
    more steps than there are taken names are never needed. *)
Fixpoint free_name (steps : nat) (taken : list Filename) (filename : Filename)
    (next_id : Z) : Filename :=
  match steps with
  | O => filename
  | S n =>
    if bool_decide (filename ∈ taken)
    then free_name n taken (Some next_id) (next_id + 1)
    else filename
  end.

Definition _make_screenshot_and_save : M unit :=
  f ← get_self;
  let w := 2048 in
  h ← lift (to_int (fmul (of_int 2048) (aspect (_camera f))));
  call (Log INFO (MsgMakingScreenshot w h));;
  await (ImageRendererRender w h);;
  taken ← ask env_files;
  let filename := free_name (S (length taken)) taken None 2 in
  call (Log INFO (MsgSavingScreenshot filename));;
  await (SaveImage filename png);;
  await (SaveImage filename depth_png);;
  await ImageRendererRelease.

Definition _on_mouse_move (x y : num) : M unit :=
  f ← get_self;
  let y := fsub (of_int (_height f)) y in
  let mouse_delta :=
    match _last_mouse_xy f with
    | Some (lx, ly) => Some (fsub x lx, fsub y ly)
    | None => None
    end in
  (if _is_button_down glfw.KEY_LEFT_ALT 0 f then _print_cursor_position else ret tt);;
  (match mouse_delta with
   | Some (dx, dy) =>
     if decide (glfw.MOUSE_BUTTON_LEFT ∈ _mouse_buttons_down f) then
       call (CameraRotate dx dy);;
       update
     else ret tt
   | None => ret tt
   end);;
  (match mouse_delta with
   | Some (dx, dy) =>
     if decide (glfw.MOUSE_BUTTON_RIGHT ∈ _mouse_buttons_down f) then
       call (CameraMove (fdiv (fneg dx) (of_int (_width f)))
                        (fdiv (fneg dy) (of_int (_width f))));;
       update
     else ret tt
   | None => ret tt
   end);;
  modify (set_last_mouse_xy (Some (x, y))).

Fixpoint invoke_callbacks (cbs : list (string * Z)) (key scancode action mods : Z)
    : M unit :=
  match cbs with
  | [] => ret tt
  | (name, cb) :: rest =>
    call (KeyboardCallback name cb key scancode action mods);;
    invoke_callbacks rest key scancode action mods
  end.

(** In the P branch the source's [else] asserts that the mode is [ortho],
    which is the only other mode. *)
Definition _on_keyboard (key scancode action mods : Z) : M unit :=
  (if decide (action = glfw.PRESS) then
     (if decide (key = glfw.KEY_LEFT_ALT) then _print_cursor_position else ret tt);;
     (if decide (key = glfw.KEY_P) then
        f ← get_self;
        match mode (_camera f) with
        | perspective =>
          modify (set_camera (set_mode ortho (_camera f)));;
          update
        | ortho =>
          modify (set_camera (set_mode perspective (_camera f)));;
          update
        end;;
        f ← get_self;
        call (Log DEBUG (MsgUsingCamera (mode (_camera f))))
      else ret tt);;
     (if decide (key = glfw.KEY_E) then
        f ← get_self;
        match _edges_mode f with
        | None => raise AttributeError
        | Some b =>
          modify (set_edges_mode (negb b));;
          call (Log DEBUG (MsgRenderingEdgesMode (negb b)));;
          update
        end
      else ret tt);;
     (if decide (key = glfw.KEY_ESCAPE) then
        call SetWindowShouldClose;;
        set_should_close true;;
        update
      else ret tt);;
     (if decide (key = glfw.KEY_S) then
        f ← get_self;
        modify (set_to_do (_to_do f ++ [MakeScreenshotAndSave]));;
        update
      else ret tt);;
     f ← get_self;
     modify (set_keyboard_buttons_down (<[key := mods]> (_keyboard_buttons_down f)))
   else if decide (action = glfw.RELEASE) then
     f ← get_self;
     if decide (is_Some (_keyboard_buttons_down f !! key))
     then modify (set_keyboard_buttons_down (delete key (_keyboard_buttons_down f)))
     else ret tt
   else ret tt);;
  f ← get_self;
  invoke_callbacks (_on_keyboard_callbacks f) key scancode action mods.

Definition _on_resize (width height : Z) : M unit :=
  call (Log DEBUG (MsgResize width height));;
  modify (set_size width height);;
  modify (set_viewport_actual false);;
  a ← lift (truediv height width);
  f ← get_self;
  modify (set_camera (set_aspect a (_camera f)));;
  update.

Definition _gl_update_viewport : M unit :=
  f ← get_self;
  if negb (_viewport_actual f) then
    await (GlViewport 0 0 (_width f) (_height f));;
    modify (set_viewport_actual true)
  else ret tt.

Definition render : M unit :=
  _gl_update_viewport;;
  await RendererRender;;
  call SwapBuffers.

Definition init : M unit :=
  f ← get_self;
  if _initialized f then raise AssertionError
  else
    call SetMouseButtonCallback;;
    call SetDoubleClickCallback;;
    call SetScrollCallback;;
    call SetCursorPosCallback;;
    call SetKeyCallback;;
    call SetDropCallback;;
    call SetWindowSizeCallback;;
    call SetWindowCloseCallback;;
    await InitGlContext;;
    await RendererInit;;
    modify (set_initialized true).

(** *** The window system and the frame limiter *)

(** One event delivered to the callback [init] registered for it.  A close
    request raises the window's close flag and then runs the close callback
    [lambda window: self._fps_limiter.stop()]. *)
Definition dispatch (e : InputEvent) : M unit :=
  match e with
  | EvMouseButton button action mods => _on_mouse_button button action mods
  | EvScroll x y => _on_scroll x y
  | EvCursorPos x y => _on_mouse_move x y
  | EvKey key scancode action mods => _on_keyboard key scancode action mods
  | EvDrop paths => _on_drop paths
  | EvResize width height => _on_resize width height
  | EvClose => set_should_close true;; call FpsStop
  end.

(** [glfw.PollEvents()] delivering [evs]. *)
Fixpoint PollEvents (evs : list InputEvent) : M unit :=
  match evs with
  | [] => ret tt
  | e :: rest =>
    r ← try (dispatch e);
    match r with
    | Ok _ => PollEvents rest
    | Raise ex =>
      if env_callback_errors_propagate env then raise ex
      else call (Unraisable ex);; PollEvents rest
    end
  end.

(** Modelled from the spec: [FPSLimiter] is not among the sources.
    [ensure_frame_limit(poll_fn)] invokes the poll operation, then suspends
    until the frame interval has elapsed; once stopped it fails with the
    cancellation condition instead of resuming.  The events polled and the
    way the call ends are the environment's. *)
Definition ensure_frame_limit : M unit :=
  call EnsureFrameLimit;;
  plan ← ask env_limiter;
  PollEvents plan.1;;
  match plan.2 with
  | Resumed => ret tt
  | Cancelled => raise CancelledError
  | LimiterFailed e => raise e
  end.

(** *** The render loop *)

Definition run_action (task : Action) : M unit :=
  match task with
  | CameraLookAtCursor => _camera_look_at_cursor
  | MakeScreenshotAndSave => _make_screenshot_and_save
  end.

(** [for task in self._to_do: yield from task].  The callbacks that append
    to [_to_do] run only inside the poll, and no action appends to it, so the
    list iterated is the one read when the loop starts.  The two marks
    bracket each [yield from]. *)
Fixpoint drain (to_do : list Action) : M unit :=
  match to_do with
  | [] => ret tt
  | task :: rest =>
    call (AwaitDeferred task);;
    run_action task;;
    call (DeferredDone task);;
    drain rest
  end.

(** The part of an iteration that follows a poll that returned. *)
Definition drain_and_render : M unit :=
  f ← get_self;
  drain (_to_do f);;
  modify (set_to_do []);;
  render.

(** How [render_loop] came to return; [Running] is the loop still going
    when the iterations counted by the model are used up. *)
Inductive LoopExit : Type := Closed | Stopped | Running.

Fixpoint loop (iterations : nat) : M LoopExit :=
  match iterations with
  | O => ret Running
  | S n =>
    call WindowShouldClose;;
    closing ← get_should_close;
    if closing : bool then ret Closed
    else
      r ← try ensure_frame_limit;
      match r with
      | Raise CancelledError =>
        f ← get_self;
        call (Log INFO (MsgStopped (_title f)));;
        ret Stopped
      | Raise e => raise e
      | Ok _ => drain_and_render;; loop n
      end
  end.

Definition render_loop (iterations : nat) : M LoopExit :=
  f ← get_self;
  (if negb (_initialized f) then init else ret tt);;
  loop iterations.

Definition close : M unit := call DestroyWindow.

(** [Frame3D(width, height, title)].  [camera_mode] is the mode the camera's
    constructor chooses. *)
Definition __init__ (width height : Z) (title : string) (camera_mode : CameraMode)
    : Res World :=
  match truediv height width with
  | Raise e => Raise e
  | Ok a =>
    Ok {| self := {| _title := title; _width := width; _height := height;
                     _viewport_actual := false; _initialized := false;
                     _camera := {| aspect := a; mode := camera_mode |};
                     _on_keyboard_callbacks := [];
                     _last_mouse_xy := None;
                     _mouse_buttons_down := ∅;
                     _keyboard_buttons_down := ∅;
                     _to_do := [];
                     _edges_mode := None |};
          should_close := false;
          calls := [CreateWindow width height title] |}
  end.

(** *** Everything that can run between two points of the loop *)

Definition run_task (t : Task) : M unit :=
  match t with
  | ReadAndRegister path => read_and_register path
  | DetermineAndPrint => determine_and_print
  end.

Inductive Op : Type :=
| OpEvent (e : InputEvent)
| OpRender
| OpAction (task : Action)
| OpTask (t : Task).

Definition run_op (o : Op) : M unit :=
  match o with
  | OpEvent e => dispatch e
  | OpRender => render
  | OpAction task => run_action task
  | OpTask t => run_task t
  end.

(** Each step runs whether or not the one before it raised. *)
Fixpoint run_ops (ops : list Op) (w : World) : World :=
  match ops with
  | [] => w
  | o :: rest => run_ops rest (run_op o w).2
  end.

Definition is_resize (o : Op) : bool :=
  match o with OpEvent (EvResize _ _) => true | _ => false end.

Definition is_render (o : Op) : bool :=
  match o with OpRender => true | _ => false end.

(** *** Reading a history *)

(** The calls made from [w] to [w']. *)
Definition emitted (w w' : World) : list Call :=
  drop (length (calls w)) (calls w').

Definition is_viewport_call (c : Call) : bool :=
  match c with GlViewport _ _ _ _ => true | _ => false end.

Definition is_render_call (c : Call) : bool :=
  match c with
  | GlViewport _ _ _ _ | RendererRender | SwapBuffers => true
  | _ => false
  end.

Definition is_marker (c : Call) : bool :=
  match c with AwaitDeferred _ | DeferredDone _ => true | _ => false end.

Definition is_init_call (c : Call) : bool :=
  match c with
  | SetMouseButtonCallback | SetDoubleClickCallback | SetScrollCallback
  | SetCursorPosCallback | SetKeyCallback | SetDropCallback
  | SetWindowSizeCallback | SetWindowCloseCallback
  | InitGlContext | RendererInit => true
  | _ => false
  end.

Definition not_init_call (c : Call) : bool := negb (is_init_call c).

Definition is_limiter_call (c : Call) : bool :=
  match c with EnsureFrameLimit => true | _ => false end.

(** The calls only [init], [render] and the loop itself make. *)
Definition is_loop_call (c : Call) : bool :=
  is_init_call c || is_render_call c || is_marker c || is_limiter_call c
  || match c with WindowShouldClose | Unraisable _ => true | _ => false end.

Definition is_handler_call (c : Call) : bool := negb (is_loop_call c).

(** The calls and marks of the [for task in self._to_do] loop. *)
Definition is_drain_call (c : Call) : bool := is_handler_call c || is_marker c.

Definition not_viewport_call (c : Call) : bool := negb (is_viewport_call c).

Definition is_quiet (o : Op) : bool := negb (is_resize o) && negb (is_render o).

Definition not_resize (o : Op) : bool := negb (is_resize o).

(** What [init] registers, in order. *)
Definition registrations : list Call :=
  [SetMouseButtonCallback; SetDoubleClickCallback; SetScrollCallback;
   SetCursorPosCallback; SetKeyCallback; SetDropCallback;
   SetWindowSizeCallback; SetWindowCloseCallback].

(** What [_on_drop] does for one decoded path. *)
Definition drop_calls (path : str) : list Call :=
  if endswith path dot_ply
  then [AsyncioAsync (ReadAndRegister path); WrapExc (ReadAndRegister path)]
  else [Log WARN (MsgUnsupportedExtension path)].


(** [respects proj ok m]: running [m] keeps the view [proj] of the object and
    makes only calls that satisfy [ok], whether it returns or raises. *)
Definition respects {A B} (proj : Frame3D → B) (ok : Call → bool) (m : M A)
    : Prop :=
  ∀ w, proj (self (m w).2) = proj (self w)
       ∧ ∃ tr, calls (m w).2 = calls w ++ tr ∧ forallb ok tr = true.

(** [m] leaves [_edges_mode] unassigned when it finds it so. *)
Definition leaves_edges_mode_unassigned {A} (m : M A) : Prop :=
  ∀ w, _edges_mode (self w) = None → _edges_mode (self (m w).2) = None.

(** The fields only [_on_resize], [_gl_update_viewport] and [init] assign. *)
Definition frame_of (f : Frame3D) : Z * Z * bool * bool :=
  (_width f, _height f, _viewport_actual f, _initialized f).

Definition with_calls (w : World) (tr : list Call) : World :=
  {| self := self w; should_close := should_close w; calls := calls w ++ tr |}.

Definition with_self (w : World) (f : Frame3D) : World :=
  {| self := f; should_close := should_close w; calls := calls w |}.

Definition clear_to_do (w : World) : World :=
  {| self := set_to_do [] (self w); should_close := should_close w;
     calls := calls w |}.

(** *** Second descriptions, for comparison with the methods *)

(** The exception the callback for event [e] raises on object [f], if any. *)
Definition callback_error (e : InputEvent) (f : Frame3D) : option Exn :=
  match e with
  | EvKey key _ action _ =>
    if decide (key = glfw.KEY_E ∧ action = glfw.PRESS) then
      match _edges_mode f with
      | None => Some AttributeError
      | Some _ => None
      end
    else None
  | EvDrop paths =>
    if forallb (λ path, bool_decide (is_Some (decode_utf8 path))) paths
    then None
    else Some UnicodeDecodeError
  | EvResize width _ =>
    if decide (width = 0) then Some ZeroDivisionError else None
  | _ => None
  end.

(** [m] returns whatever the state it starts in. *)
Definition returns {A} (m : M A) : Prop := ∀ w, ∃ a, (m w).1 = Ok a.

(** [m] keeps the property [I] of the world. *)
Definition preserves (I : World → Prop) {A} (m : M A) : Prop :=
  ∀ w, I w → I (m w).2.


(** The other projection mode. *)
Definition other_mode (m : CameraMode) : CameraMode :=
  match m with perspective => ortho | ortho => perspective end.


Definition is_camera_call (c : Call) : bool :=
  match c with
  | CameraZoomIn _ | CameraRotate _ _ | CameraMove _ _ | CameraSetTarget _ => true
  | _ => false
  end.

Definition not_camera_call (c : Call) : bool := negb (is_camera_call c).

(** [m] requests a redraw whenever it changes the camera: either it calls
    [update()], or the camera attributes are as before and no camera method
    was called. *)
Definition redraws {A} (m : M A) : Prop :=
  ∀ w, ∃ tr, calls (m w).2 = calls w ++ tr
             ∧ (In FpsUpdate tr
                ∨ (_camera (self (m w).2) = _camera (self w)
                   ∧ forallb not_camera_call tr = true)).

(** The deferred actions the callback for [e] appends to [_to_do]. *)
Definition enqueued (e : InputEvent) (w : World) : list Action :=
  match e with
  | EvMouseButton button action _ =>
    if decide (button = glfw.MOUSE_BUTTON_LEFT ∧ action = glfw.PRESS) then
      if env_double_click env (calls w ++ [DoubleClickOnPressed button]) button
      then [CameraLookAtCursor] else []
    else []
  | EvKey key _ action _ =>
    if decide (key = glfw.KEY_S ∧ action = glfw.PRESS)
    then [MakeScreenshotAndSave] else []
  | _ => []
  end.


(** The window's close flag is up. *)
Definition closing_flag (w : World) : Prop := should_close w = true.

(** *** The keyboard subscribers *)

Inductive Registration : Type :=
| Register (name : string) (callback : Z)
| Unregister (name : string).

Definition apply_registration (r : Registration) : M unit :=
  match r with
  | Register name callback => add_on_keyboard_callback name callback
  | Unregister name => delete_on_keyboard_callback name
  end.

(** The subscribers as a finite map from name to callback. *)
Definition subscribers (f : Frame3D) : gmap string Z :=
  list_to_map (_on_keyboard_callbacks f).

Definition registered (r : Registration) (m : gmap string Z) : gmap string Z :=
  match r with
  | Register name callback => <[name := callback]> m
  | Unregister name => delete name m
  end.

Definition is_keyboard_callback (c : Call) : bool :=
  match c with KeyboardCallback _ _ _ _ _ _ => true | _ => false end.

Definition not_keyboard_callback (c : Call) : bool := negb (is_keyboard_callback c).


(** What every subscriber is sent for a key event, one call per entry. *)
Definition notifications (f : Frame3D) (key scancode action mods : Z) : list Call :=
  map (λ cb, KeyboardCallback cb.1 cb.2 key scancode action mods)
      (_on_keyboard_callbacks f).




Definition is_frame_call (c : Call) : bool :=
  match c with EnsureFrameLimit | RendererRender => true | _ => false end.

Definition not_frame_call (c : Call) : bool := negb (is_frame_call c).

(** [k] frames: a wait on the frame limiter, then a draw, [k] times. *)
Fixpoint frames (k : nat) : list Call :=
  match k with
  | O => []
  | S k => EnsureFrameLimit :: RendererRender :: frames k
  end.




(** *** Dropped files and the scene *)

(** The tasks handed to [wrap_exc] among some calls, in order. *)
Definition spawned (tr : list Call) : list Task :=
  omap (λ c, match c with WrapExc t => Some t | _ => None end) tr.

(** The clouds added to the scene among some calls, in order. *)
Definition scene_additions (tr : list Call) : list str :=
  omap (λ c, match c with SceneAddRenderable p => Some p | _ => None end) tr.

Definition is_ply (path : str) : bool := endswith path dot_ply.

Definition is_position_log (c : Call) : bool :=
  match c with Log DEBUG (MsgPositionUnderCursor _) => true | _ => false end.

End Model.

Arguments Env num : clear implicits.
Arguments World num : clear implicits.
Arguments Call num : clear implicits.
Arguments InputEvent num : clear implicits.

(** ** Binary64 numbers *)

(** [float(z)], for [|z| < 2^63]. *)
Definition float_of_Z (z : Z) : float :=
  if z <? 0 then PrimFloat.opp (PrimFloat.of_uint63 (Uint63.of_Z (- z)))
  else PrimFloat.of_uint63 (Uint63.of_Z z).

(** [int(x)]: truncation towards zero. *)
Definition float_to_int (x : float) : Res Z :=
  match Prim2SF x with
  | S754_zero _ => Ok 0
  | S754_finite s m e =>
    let v := Z.shiftl (Z.pos m) e in Ok (if s then - v else v)
  | S754_infinity _ => Raise OverflowError
  | S754_nan => Raise ValueError
  end.

(** Rounding to binary32 (24 bits of precision, exponents below 128). *)
Definition round_float32 (x : float) : float :=
  match Prim2SF x with
  | S754_finite s m e => SF2Prim (SpecFloat.binary_round 24 128 s m e)
  | _ => x
  end.

(** [int_truediv] is exact division of the converted operands, which is
    Python's result whenever both ints are below 2^53 in magnitude. *)
#[export] Instance Float64 : PyFloat float := {
  of_int := float_of_Z;
  half := 0.5%float;
  fsub := PrimFloat.sub;
  fmul := PrimFloat.mul;
  fdiv := PrimFloat.div;
  fneg := PrimFloat.opp;
  feqb := PrimFloat.eqb;
  to_int := float_to_int;
  int_truediv := λ a b, PrimFloat.div (float_of_Z a) (float_of_Z b);
  float32 := round_float32
}.

(** ** Scripted environments *)

(** The number of [ensure_frame_limit] calls in a history. *)
Definition polls_so_far (h : list (Call float)) : nat :=
  length (List.filter is_limiter_call h).

(** An environment in which the k-th call of [ensure_frame_limit] follows
    the k-th entry of [script] (and resumes with no event once the script is
    used up), the awaited operation [failing] raises, presses are double
    clicks when [double] says so, and every depth sample is [depth]. *)
Definition scripted (script : list (list (InputEvent float) * LimiterOutcome))
    (failing : Call float → option Exn) (double : bool) (depth : float)
    : Env float :=
  {| env_raises := λ _ c, failing c;
     env_limiter := λ h, nth (polls_so_far h - 1) script ([], Resumed);
     env_callback_errors_propagate := false;
     env_double_click := λ _ _, double;
     env_depth := λ _, depth;
     env_unproject := λ _ xyz, xyz;
     env_files := λ _, [None] |}.

Definition nothing_fails : Call float → option Exn := λ _, None.

(** A 640x480 frame as its constructor leaves it. *)
Definition fresh : World float :=
  {| self := {| _title := "Frame3D"; _width := 640; _height := 480;
                _viewport_actual := false; _initialized := false;
                _camera := {| aspect := 0.75%float; mode := perspective |};
                _on_keyboard_callbacks := [];
                _last_mouse_xy := None; _mouse_buttons_down := ∅;
                _keyboard_buttons_down := ∅; _to_do := [];
                _edges_mode := None |};
     should_close := false;
     calls := [CreateWindow 640 480 "Frame3D"] |}.

(** Environments in which nothing fails and no press is a double click:
    [quiet] polls no event and reads the far plane, [closing] delivers a
    close request and cancels the first wait, [busy] delivers a cursor move,
    a double click and a press of S, and reads depth 0.5. *)
Definition quiet : Env float := scripted [] nothing_fails false 1%float.

Definition closing : Env float :=
  scripted [([EvClose], Cancelled)] nothing_fails false 1%float.

Definition busy : Env float :=
  scripted
    [([EvCursorPos 320.5%float 239.5%float;
       EvMouseButton glfw.MOUSE_BUTTON_LEFT glfw.PRESS 0;
       EvKey glfw.KEY_S 0 glfw.PRESS 0], Resumed)]
    nothing_fails true 0.5%float.

(** [fresh] after [init()]. *)
Definition started : World float := (init quiet fresh).2.


(** [started] with the cursor at (100, 100) and the right button held. *)
Definition dragging : World float :=
  run_ops quiet
    [OpEvent (EvCursorPos 100%float 100%float);
     OpEvent (EvMouseButton glfw.MOUSE_BUTTON_RIGHT glfw.PRESS 0)]
    started.

(** [started] with the cursor at (100, 100) and the left button held. *)
Definition rotating : World float :=
  run_ops quiet
    [OpEvent (EvCursorPos 100%float 100%float);
     OpEvent (EvMouseButton glfw.MOUSE_BUTTON_LEFT glfw.PRESS 0)]
    started.

(** [started] with two keyboard subscribers. *)
Definition subscribed : World float :=
  (apply_registration (Register "viewer" 2)
     (apply_registration (Register "recorder" 1) started).2).2.

(** ** Properties *)

Section Properties.
Context {num : Type} {PF : PyFloat num} (env : Env num).

Implicit Types (w : World num) (c : Call num) (f : @Frame3D num).

Ltac run :=
  repeat first
    [ progress cbn [bind ret raise call await modify get_self get_should_close
                    set_should_close ask lift try update fst snd negb]
    | progress unfold bind, ret, raise, call, await, modify, get_self,
        get_should_close, set_should_close, ask, lift, try, update ].

Lemma world_eta w :
  {| self := self w; should_close := should_close w; calls := calls w |} = w.
Proof. by destruct w. Qed.

Lemma with_calls_nil w : with_calls w [] = w.
Proof. unfold with_calls. rewrite app_nil_r. apply world_eta. Qed.

Lemma invoke_callbacks_spec cbs key scancode action mods w :
  invoke_callbacks cbs key scancode action mods w
  = (Ok tt, with_calls w
              (map (λ cb, KeyboardCallback cb.1 cb.2 key scancode action mods) cbs)).
Proof.
  revert w. induction cbs as [|[name cb] cbs IH]; intros w.
  - by rewrite with_calls_nil.
  - cbn [invoke_callbacks]. run. rewrite IH. unfold with_calls, log_call.
    cbn. by rewrite <- app_assoc.
Qed.

(** *** What a program leaves alone *)

Section Respects.
Context {B : Type} (proj : @Frame3D num → B) (ok : Call num → bool).

Lemma respects_silent {A} (m : M A) :
  (∀ w, self (m w).2 = self w ∧ calls (m w).2 = calls w) → respects proj ok m.
Proof.
  intros Hm w. destruct (Hm w) as [-> ->]. split; [done|].
  exists []. by rewrite app_nil_r.
Qed.

Lemma respects_ret {A} (a : A) : respects proj ok (ret a).
Proof. by apply respects_silent. Qed.

Lemma respects_raise {A} e : respects proj ok (raise (A := A) e).
Proof. by apply respects_silent. Qed.

Lemma respects_lift {A} (r : Res A) : respects proj ok (lift r).
Proof. destruct r; by apply respects_silent. Qed.

Lemma respects_get_self : respects proj ok get_self.
Proof. by apply respects_silent. Qed.

Lemma respects_get_should_close : respects proj ok get_should_close.
Proof. by apply respects_silent. Qed.

Lemma respects_set_should_close b : respects proj ok (set_should_close b).
Proof. by apply respects_silent. Qed.

Lemma respects_ask {A} (q : Env num → list (Call num) → A) :
  respects proj ok (ask env q).
Proof. by apply respects_silent. Qed.

Lemma respects_modify g :
  (∀ f, proj (g f) = proj f) → respects proj ok (modify g).
Proof.
  intros Hg w. split; [apply Hg|]. exists []. by rewrite app_nil_r.
Qed.

Lemma respects_call c : ok c = true → respects proj ok (call c).
Proof.
  intros Hc w. split; [done|]. exists [c]. split; [done|]. cbn. by rewrite Hc.
Qed.

Lemma respects_await c : ok c = true → respects proj ok (await env c).
Proof.
  intros Hc w. unfold await.
  destruct (env_raises env (calls w) c); (split; [done|]);
    exists [c]; (split; [done|]); cbn; by rewrite Hc.
Qed.

Lemma respects_bind {A C} (m : M A) (k : A → M C) :
  respects proj ok m → (∀ a, respects proj ok (k a)) →
  respects proj ok (bind m k).
Proof.
  intros Hm Hk w. unfold bind. destruct (Hm w) as (Hp & tr & Hc & Ht).
  destruct (m w) as [[a|e] w1]; cbn in *.
  - destruct (Hk a w1) as (Hp' & tr' & Hc' & Ht'). split; [congruence|].
    exists (tr ++ tr'). rewrite Hc', Hc, forallb_app, Ht, Ht'.
    by rewrite <- app_assoc.
  - split; [done|]. by exists tr.
Qed.

Lemma respects_try {A} (m : M A) : respects proj ok m → respects proj ok (try m).
Proof.
  intros Hm w. unfold try. specialize (Hm w). by destruct (m w) as [r w1].
Qed.

End Respects.

Lemma respects_weaken {A B B'} (proj : @Frame3D num → B) (proj' : B → B')
    (ok ok' : Call num → bool) (m : M A) :
  (∀ c, ok c = true → ok' c = true) →
  respects proj ok m → respects (proj' ∘ proj) ok' m.
Proof.
  intros Hok Hm w. destruct (Hm w) as (Hp & tr & Hc & Ht). split.
  - cbn. by rewrite Hp.
  - exists tr. split; [done|]. rewrite forallb_forall in Ht |- *. auto.
Qed.

Ltac respects_step :=
  lazymatch goal with
  | |- respects _ _ (bind _ _) => apply respects_bind; [|intros ?]
  | |- respects _ _ (ret _) => apply respects_ret
  | |- respects _ _ (raise _) => apply respects_raise
  | |- respects _ _ (lift _) => apply respects_lift
  | |- respects _ _ get_self => apply respects_get_self
  | |- respects _ _ get_should_close => apply respects_get_should_close
  | |- respects _ _ (set_should_close _) => apply respects_set_should_close
  | |- respects _ _ (ask _ _) => apply respects_ask
  | |- respects _ _ (try _) => apply respects_try
  | |- respects _ _ (modify _) => apply respects_modify; intros ?; reflexivity
  | |- respects _ _ (call _) => apply respects_call; reflexivity
  | |- respects _ _ (await _ _) => apply respects_await; reflexivity
  | |- respects _ _ (if ?b then _ else _) => destruct b
  | |- respects _ _ (match ?x with _ => _ end) => destruct x
  | |- respects _ _ (let _ := _ in _) => cbv zeta
  end.

Ltac respects_tac := repeat respects_step.

Lemma invoke_callbacks_respects {B} (proj : @Frame3D num → B) cbs key scancode action mods :
  respects proj is_handler_call (invoke_callbacks cbs key scancode action mods).
Proof.
  induction cbs as [|[name cb] cbs IH]; cbn [invoke_callbacks]; respects_tac.
  exact IH.
Qed.

Lemma _on_drop_respects {B} (proj : @Frame3D num → B) paths :
  respects proj is_handler_call (_on_drop paths).
Proof.
  induction paths as [|path paths IH]; cbn [_on_drop]; respects_tac.
  all: exact IH.
Qed.

Lemma dispatch_respects e :
  is_resize (OpEvent e) = false →
  respects frame_of is_handler_call (dispatch env e).
Proof.
  intros He. destruct e; try discriminate He;
    unfold dispatch, _on_mouse_button, on_pressed, _on_mouse_double_click,
      _on_scroll, _on_mouse_move, _on_keyboard, _print_cursor_position, update;
    respects_tac;
    first [apply invoke_callbacks_respects | apply _on_drop_respects].
Qed.

Lemma dispatch_emits e : respects (λ _, tt) is_handler_call (dispatch env e).
Proof.
  destruct e;
    unfold dispatch, _on_mouse_button, on_pressed, _on_mouse_double_click,
      _on_scroll, _on_mouse_move, _on_keyboard, _on_resize,
      _print_cursor_position, update;
    respects_tac;
    first [apply invoke_callbacks_respects | apply _on_drop_respects].
Qed.

Lemma run_action_respects task :
  respects id is_handler_call (run_action env task).
Proof.
  destruct task;
    unfold run_action, _camera_look_at_cursor, _make_screenshot_and_save,
      _determine_cursor_position;
    respects_tac.
Qed.

Lemma run_task_respects t : respects id is_handler_call (run_task env t).
Proof.
  destruct t;
    unfold run_task, read_and_register, add_points_cloud, determine_and_print,
      _determine_cursor_position;
    respects_tac.
Qed.

(** [render] may only settle the viewport flag. *)
Lemma render_respects :
  respects (set_viewport_actual true) is_render_call (render env).
Proof. unfold render, _gl_update_viewport. respects_tac. Qed.

Lemma respects_ok_weaken {A B} (proj : @Frame3D num → B)
    (ok ok' : Call num → bool) (m : M A) :
  (∀ c, ok c = true → ok' c = true) → respects proj ok m → respects proj ok' m.
Proof.
  intros Hok Hm w. destruct (Hm w) as (Hp & tr & Hc & Ht). split; [done|].
  exists tr. split; [done|]. rewrite forallb_forall in Ht |- *. auto.
Qed.

Lemma filter_none (ok bad : Call num → bool) tr :
  (∀ c, ok c = true → bad c = false) →
  forallb ok tr = true → List.filter bad tr = [].
Proof.
  intros Hb. induction tr as [|c tr IH]; [done|]. cbn.
  intros [Hc Ht]%andb_true_iff. by rewrite (Hb c Hc), IH.
Qed.

Lemma handler_call_not_render c :
  is_handler_call c = true → is_render_call c = false.
Proof. by destruct c. Qed.


Lemma handler_call_not_init c :
  is_handler_call c = true → is_init_call c = false.
Proof. by destruct c. Qed.

Lemma handler_call_not_viewport c :
  is_handler_call c = true → is_viewport_call c = false.
Proof. by destruct c. Qed.


Lemma emitted_app w w' tr : calls w' = calls w ++ tr → emitted w w' = tr.
Proof. intros Hc. unfold emitted. rewrite Hc. apply drop_app_length. Qed.

(** *** Draining the queue *)

Lemma drain_respects to_do : respects id is_drain_call (drain env to_do).
Proof.
  induction to_do as [|task rest IH]; cbn [drain]; respects_tac; [|exact IH].
  eapply respects_ok_weaken; [|apply run_action_respects].
  intros c Hc. unfold is_drain_call. by rewrite Hc.
Qed.


Lemma drain_call_not_init c : is_drain_call c = true → not_init_call c = true.
Proof. by destruct c. Qed.




(** *** The loop never initializes *)

Lemma respects_calls {A B} (proj : @Frame3D num → B) (ok ok' : Call num → bool)
    (m : M A) :
  (∀ c, ok c = true → ok' c = true) →
  respects proj ok m → respects (λ _, tt) ok' m.
Proof. intros Hok Hm. by apply (respects_weaken proj (λ _, tt) ok ok'). Qed.

Lemma handler_call_not_init' c : is_handler_call c = true → not_init_call c = true.
Proof. by destruct c. Qed.

Lemma PollEvents_respects evs :
  respects (λ _, tt) not_init_call (PollEvents env evs).
Proof.
  induction evs as [|e evs IH]; cbn [PollEvents]; respects_tac; try exact IH.
  eapply respects_calls; [apply handler_call_not_init'|apply dispatch_emits].
Qed.

Lemma ensure_frame_limit_respects :
  respects (λ _, tt) not_init_call (ensure_frame_limit env).
Proof. unfold ensure_frame_limit. respects_tac. apply PollEvents_respects. Qed.

Lemma render_call_not_init c : is_render_call c = true → not_init_call c = true.
Proof. by destruct c. Qed.

Lemma drain_and_render_respects :
  respects (λ _, tt) not_init_call (drain_and_render env).
Proof.
  unfold drain_and_render. respects_tac.
  - eapply respects_calls; [apply drain_call_not_init|apply drain_respects].
  - eapply respects_calls; [apply render_call_not_init|apply render_respects].
Qed.

Lemma loop_respects n : respects (λ _, tt) not_init_call (loop env n).
Proof.
  induction n as [|n IH]; cbn [loop]; respects_tac;
    first [exact IH | apply ensure_frame_limit_respects
          | apply drain_and_render_respects].
Qed.

(** C9. [render_loop()] on an object that was not initialized is [init()]
    followed by the polling loop: the callbacks are registered and the
    graphics context is started before the loop makes its first call, an
    exception of [init()] leaves [render_loop()] before any iteration, and
    the loop itself makes no call of [init()] again. *)
Theorem render_loop_initializes_first w n :
  _initialized (self w) = false →
  render_loop env n w = bind (init env) (λ _, loop env n) w
  ∧ (∃ rest, emitted w (init env w).2 = registrations ++ InitGlContext :: rest
             ∧ (rest = [] ∨ rest = [RendererInit]))
  ∧ (∃ tr, emitted w (render_loop env n w).2 = emitted w (init env w).2 ++ tr
           ∧ List.filter is_init_call tr = []).
Proof.
  intros Hn.
  assert (render_loop env n w = bind (init env) (λ _, loop env n) w) as Hr.
  { unfold render_loop, bind at 1. cbn [get_self]. by rewrite Hn. }
  split; [exact Hr|]. split.
  - unfold init. run. rewrite Hn. cbn.
    repeat (match goal with
            | |- context [env_raises env ?h ?c] => destruct (env_raises env h c)
            end; cbn);
      eexists; (split; [apply emitted_app; cbn; rewrite <- ?app_assoc; cbn;
                        reflexivity|]); auto.
  - rewrite Hr. unfold bind.
    assert (∃ tri, calls (init env w).2 = calls w ++ tri) as [tri Hi].
    { unfold init. run. rewrite Hn. cbn.
      repeat (match goal with
              | |- context [env_raises env ?h ?c] => destruct (env_raises env h c)
              end; cbn);
        rewrite <- ?app_assoc; by eexists. }
    rewrite (emitted_app _ _ _ Hi).
    destruct (init env w) as [[[]|e] w1]; cbn in Hi |- *.
    + destruct (loop_respects n w1) as (_ & tr & Hc & Ht).
      exists tr. split.
      * apply emitted_app. by rewrite Hc, Hi, <- app_assoc.
      * eapply filter_none; [|exact Ht]. unfold not_init_call.
        by intros c ->%negb_true_iff.
    + exists []. rewrite app_nil_r. split; [by apply emitted_app|done].
Qed.

(** *** The viewport flag *)

Lemma run_op_quiet o :
  is_quiet o = true → respects frame_of is_handler_call (run_op env o).
Proof.
  intros Ho. destruct o as [e| |task|t]; try discriminate Ho.
  - apply dispatch_respects. by destruct e.
  - apply (respects_weaken id frame_of is_handler_call is_handler_call);
      [done|apply run_action_respects].
  - apply (respects_weaken id frame_of is_handler_call is_handler_call);
      [done|apply run_task_respects].
Qed.

Lemma run_ops_quiet ops w :
  forallb is_quiet ops = true →
  frame_of (self (run_ops env ops w)) = frame_of (self w)
  ∧ ∃ tr, calls (run_ops env ops w) = calls w ++ tr
          ∧ List.filter is_viewport_call tr = [].
Proof.
  revert w. induction ops as [|o ops IH]; intros w; cbn [forallb run_ops].
  - intros _. split; [done|]. exists []. by rewrite app_nil_r.
  - intros [Ho Hops]%andb_true_iff.
    destruct (run_op_quiet o Ho w) as (Hp & tr & Hc & Ht).
    destruct (IH (run_op env o w).2 Hops) as (Hp' & tr' & Hc' & Ht').
    split; [congruence|]. exists (tr ++ tr'). split.
    + by rewrite Hc', Hc, <- app_assoc.
    + rewrite List.filter_app, Ht'.
      by rewrite (filter_none _ _ _ handler_call_not_viewport Ht).
Qed.

Lemma render_settled w :
  _viewport_actual (self w) = true →
  _viewport_actual (self (render env w).2) = true
  ∧ ∃ tr, calls (render env w).2 = calls w ++ tr
          ∧ List.filter is_viewport_call tr = [].
Proof.
  intros Hv. unfold render, _gl_update_viewport. run. rewrite Hv. cbn.
  destruct (env_raises env (calls w) RendererRender); cbn;
    (split; [done|]); eexists; (split; [rewrite <- ?app_assoc; reflexivity|done]).
Qed.

Lemma run_op_settled o w :
  not_resize o = true →
  _viewport_actual (self w) = true →
  _viewport_actual (self (run_op env o w).2) = true
  ∧ ∃ tr, calls (run_op env o w).2 = calls w ++ tr
          ∧ List.filter is_viewport_call tr = [].
Proof.
  intros Ho Hv. destruct (is_render o) eqn:Hr.
  - destruct o; try discriminate Hr. by apply render_settled.
  - assert (is_quiet o = true) as Hq
      by (unfold is_quiet; rewrite Hr; unfold not_resize in Ho; by rewrite Ho).
    destruct (run_op_quiet o Hq w) as (Hp & tr & Hc & Ht). split.
    + unfold frame_of in Hp. injection Hp as _ _ Hp _. congruence.
    + exists tr. split; [done|].
      by rewrite (filter_none _ _ _ handler_call_not_viewport Ht).
Qed.

Lemma run_ops_settled ops w :
  forallb not_resize ops = true →
  _viewport_actual (self w) = true →
  ∃ tr, calls (run_ops env ops w) = calls w ++ tr
        ∧ List.filter is_viewport_call tr = [].
Proof.
  revert w. induction ops as [|o ops IH]; intros w; cbn [forallb run_ops].
  - intros _ _. exists []. by rewrite app_nil_r.
  - intros [Ho Hops]%andb_true_iff Hv.
    destruct (run_op_settled o w Ho Hv) as (Hv' & tr & Hc & Ht).
    destruct (IH _ Hops Hv') as (tr' & Hc' & Ht').
    exists (tr ++ tr'). split.
    + by rewrite Hc', Hc, <- app_assoc.
    + by rewrite List.filter_app, Ht, Ht'.
Qed.

(** C4. After a resize callback the stored size is the new one and the
    viewport is stale; for a non-zero width the callback returns and the
    camera aspect is height / width.  Whatever callbacks, deferred actions
    and tasks run next issue no [glViewport]; the next [render()] issues
    exactly one, first thing and with the new size; and once that call has
    returned, nothing that runs without a further resize (renders included)
    issues another. *)
Theorem resize_updates_viewport_once w width height ops1 ops2 w1 w2 w3 w4 :
  forallb is_quiet ops1 = true →
  forallb not_resize ops2 = true →
  w1 = (_on_resize width height w).2 →
  w2 = run_ops env ops1 w1 →
  w3 = (render env w2).2 →
  w4 = run_ops env ops2 w3 →
  _width (self w1) = width
  ∧ _height (self w1) = height
  ∧ _viewport_actual (self w1) = false
  ∧ (width ≠ 0 →
     (_on_resize width height w).1 = Ok tt
     ∧ aspect (_camera (self w1)) = int_truediv height width)
  ∧ List.filter is_viewport_call (emitted w1 w2) = []
  ∧ (∃ rest, emitted w2 w3 = GlViewport 0 0 width height :: rest
             ∧ List.filter is_viewport_call rest = [])
  ∧ (env_raises env (calls w2) (GlViewport 0 0 width height) = None →
     List.filter is_viewport_call (emitted w3 w4) = []).
Proof.
  intros Hq1 Hq2 -> -> -> ->.
  set (w1 := (_on_resize width height w).2).
  assert (_width (self w1) = width ∧ _height (self w1) = height
          ∧ _viewport_actual (self w1) = false) as (Hw1 & Hh1 & Hv1).
  { unfold w1, _on_resize, truediv. run. by destruct (decide (width = 0)). }
  repeat (split; [assumption|]). split.
  { intros Hw. unfold w1, _on_resize, truediv. run.
    by destruct (decide (width = 0)). }
  destruct (run_ops_quiet ops1 w1 Hq1) as (Hp & tr & Hc & Ht).
  set (w2 := run_ops env ops1 w1) in *.
  unfold frame_of in Hp. injection Hp as Hw2 Hh2 Hv2 _.
  rewrite Hw1 in Hw2. rewrite Hh1 in Hh2. rewrite Hv1 in Hv2.
  split; [by rewrite (emitted_app _ _ _ Hc)|].
  unfold render, _gl_update_viewport. run. rewrite Hv2, Hw2, Hh2.
  cbn -[emitted run_ops].
  destruct (env_raises env (calls w2) (GlViewport 0 0 width height)) eqn:Hg;
    cbn -[emitted run_ops].
  - split; [|done]. exists []. split; [|done]. by apply emitted_app.
  - match goal with
    | |- context [env_raises env ?h RendererRender] =>
        destruct (env_raises env h RendererRender)
    end; cbn -[emitted run_ops].
    all: split;
      [eexists; split; [apply emitted_app; cbn; rewrite <- ?app_assoc; cbn;
                        reflexivity|done]|].
    all: intros _;
      match goal with
      | |- context [run_ops env ?ops ?w3] =>
          destruct (run_ops_settled ops w3 Hq2 eq_refl) as (tr2 & Hc2 & Ht2)
      end;
      by rewrite (emitted_app _ _ _ Hc2).
Qed.

(** C10. A RELEASE of a mouse button that is not in the pressed set, and a
    RELEASE of a key that is not in the modifier map, raise nothing and leave
    the pressed set and the map as they were: the mouse handler changes
    nothing at all, the keyboard handler only notifies the registered
    keyboard subscribers. *)
Theorem release_of_unpressed_changes_nothing w button key scancode mods mods' :
  button ∉ _mouse_buttons_down (self w) →
  _keyboard_buttons_down (self w) !! key = None →
  _on_mouse_button env button glfw.RELEASE mods w = (Ok tt, w)
  ∧ ∃ w', _on_keyboard key scancode glfw.RELEASE mods' w = (Ok tt, w')
      ∧ self w' = self w
      ∧ should_close w' = should_close w
      ∧ calls w' = calls w ++
          map (λ cb, KeyboardCallback cb.1 cb.2 key scancode glfw.RELEASE mods')
              (_on_keyboard_callbacks (self w)).
Proof.
  intros Hb Hk. split.
  - unfold _on_mouse_button.
    destruct (decide (glfw.RELEASE = glfw.PRESS)) as [E|_]; [discriminate E|].
    destruct (decide (glfw.RELEASE = glfw.RELEASE)) as [_|N]; [|done].
    run. by destruct (decide (button ∈ _mouse_buttons_down (self w))).
  - unfold _on_keyboard.
    destruct (decide (glfw.RELEASE = glfw.PRESS)) as [E|_]; [discriminate E|].
    destruct (decide (glfw.RELEASE = glfw.RELEASE)) as [_|N]; [|done].
    run.
    destruct (decide (is_Some (_keyboard_buttons_down (self w) !! key)))
      as [[v Hv]|_]; [congruence|].
    run. rewrite invoke_callbacks_spec. eexists. split; [reflexivity|]. done.
Qed.

(** C3. A cursor move while the right button is held and a previous cursor
    position is known calls [camera.move] once, with the negated deltas each
    divided by the stored width (the vertical one too), after the optional
    cursor probe and left-button rotation, and records the new position. *)
Theorem right_drag_moves_by_width w x y lx ly :
  glfw.MOUSE_BUTTON_RIGHT ∈ _mouse_buttons_down (self w) →
  _last_mouse_xy (self w) = Some (lx, ly) →
  _on_mouse_move x y w
  = (Ok tt,
     with_calls
       (with_self w
          (set_last_mouse_xy (Some (x, fsub (of_int (_height (self w))) y)) (self w)))
       ((if _is_button_down glfw.KEY_LEFT_ALT 0 (self w)
         then [WrapExc DetermineAndPrint] else [])
        ++ (if decide (glfw.MOUSE_BUTTON_LEFT ∈ _mouse_buttons_down (self w))
            then [CameraRotate (fsub x lx)
                    (fsub (fsub (of_int (_height (self w))) y) ly); FpsUpdate]
            else [])
        ++ [CameraMove
              (fdiv (fneg (fsub x lx)) (of_int (_width (self w))))
              (fdiv (fneg (fsub (fsub (of_int (_height (self w))) y) ly))
                 (of_int (_width (self w))));
            FpsUpdate])).
Proof.
  intros Hr Hl. unfold _on_mouse_move, _print_cursor_position. run. rewrite Hl.
  destruct (decide (glfw.MOUSE_BUTTON_RIGHT ∈ _mouse_buttons_down (self w)));
    [|done].
  destruct (_is_button_down glfw.KEY_LEFT_ALT 0 (self w));
    destruct (decide (glfw.MOUSE_BUTTON_LEFT ∈ _mouse_buttons_down (self w)));
    run; unfold with_calls, with_self, log_call; cbn;
    rewrite <- ?app_assoc; reflexivity.
Qed.

(** C8. When the depth sample read under the cursor equals 1.0,
    [_determine_cursor_position] returns [None], and the focus action
    [_camera_look_at_cursor] then only logs the empty pixel: the object and
    its camera are untouched and no target is assigned. *)
Theorem far_plane_depth_is_no_hit w x y ix iy :
  _last_mouse_xy (self w) = Some (x, y) →
  to_int x = Ok ix →
  to_int y = Ok iy →
  env_raises env (calls w) (GlReadPixels ix iy) = None →
  feqb (env_depth env (calls w ++ [GlReadPixels ix iy])) (of_int 1) = true →
  _determine_cursor_position env w = (Ok None, with_calls w [GlReadPixels ix iy])
  ∧ _camera_look_at_cursor env w
    = (Ok tt, with_calls w [GlReadPixels ix iy; Log DEBUG MsgDoubleClickOnEmptyPixel]).
Proof.
  intros Hl Hx Hy Hr Hz.
  assert (_determine_cursor_position env w
          = (Ok None, with_calls w [GlReadPixels ix iy])) as Hd.
  { unfold _determine_cursor_position. run. rewrite Hl, Hx. run. rewrite Hy.
    run. rewrite Hr. cbn. rewrite Hz. reflexivity. }
  split; [exact Hd|].
  unfold _camera_look_at_cursor, bind. rewrite Hd. run.
  unfold with_calls, log_call. cbn. by rewrite <- app_assoc.
Qed.

(** C7. A second [init()] after one that returned fails the assertion and
    does nothing else.  On an object not yet initialized the assertion
    passes: [init()] registers the eight window callbacks and starts the
    graphics context, and when the context and the renderer initialize it
    returns with the object marked initialized. *)
Theorem init_only_once w :
  (∀ w1, init env w = (Ok tt, w1) →
     init env w1 = (Raise AssertionError, w1))
  ∧ (_initialized (self w) = false →
     (∃ rest, emitted w (init env w).2 = registrations ++ InitGlContext :: rest)
     ∧ (env_raises env (calls w ++ registrations) InitGlContext = None →
        env_raises env (calls w ++ registrations ++ [InitGlContext]) RendererInit
          = None →
        init env w
        = (Ok tt, with_calls (with_self w (set_initialized true (self w)))
                    (registrations ++ [InitGlContext; RendererInit])))).
Proof.
  assert (∀ w0 tr, calls (with_calls w0 tr) = calls w0 ++ tr) as Hwc by done.
  split.
  - intros w1 Hi. assert (_initialized (self w1) = true) as Hw1.
    { revert Hi. unfold init. run.
      destruct (_initialized (self w)); [discriminate|]. cbn.
      repeat (match goal with
              | |- context [env_raises env ?h ?c] =>
                  destruct (env_raises env h c); [discriminate|]
              end; cbn).
      by intros [= <-]. }
    unfold init. run. by rewrite Hw1.
  - intros Hn. unfold init. run. rewrite Hn. cbn. split.
    + repeat (match goal with
              | |- context [env_raises env ?h ?c] =>
                  destruct (env_raises env h c)
              end; cbn);
        eexists; apply emitted_app; cbn; rewrite <- ?app_assoc; cbn;
        reflexivity.
    + intros H1 H2. unfold registrations in *. cbn in H1, H2.
      rewrite <- ?app_assoc. cbn. rewrite H1. cbn.
      rewrite <- ?app_assoc. cbn. rewrite H2. cbn.
      unfold with_calls, with_self. cbn. by rewrite <- ?app_assoc.
Qed.

(** C2. When [ensure_frame_limit] raises [CancelledError] in an iteration,
    [render_loop] logs that it stopped and returns: nothing is raised, no
    deferred action is awaited and nothing is rendered after the
    cancellation, and the queue stays as it was. *)
Theorem cancellation_stops_the_loop w w1 n :
  should_close w = false →
  ensure_frame_limit env (with_calls w [WindowShouldClose])
    = (Raise CancelledError, w1) →
  loop env (S n) w
    = (Ok Stopped, with_calls w1 [Log INFO (MsgStopped (_title (self w1)))])
  ∧ (_initialized (self w) = true →
     render_loop env (S n) w
       = (Ok Stopped, with_calls w1 [Log INFO (MsgStopped (_title (self w1)))])).
Proof.
  intros Hc He.
  assert (loop env (S n) w
          = (Ok Stopped, with_calls w1 [Log INFO (MsgStopped (_title (self w1)))]))
    as Hl.
  { cbn [loop]. unfold bind at 1. cbn [call]. unfold bind at 1.
    cbn [get_should_close log_call should_close]. rewrite Hc.
    unfold bind at 1, try.
    change (log_call WindowShouldClose w) with (with_calls w [WindowShouldClose]).
    rewrite He. done. }
  split; [exact Hl|]. intros Hi. unfold render_loop, bind at 1.
  cbn [get_self]. rewrite Hi. cbn [negb]. unfold bind at 1. cbn [ret].
  exact Hl.
Qed.

(** The calls [_on_drop] makes are those of each path in turn. *)
Lemma _on_drop_spec paths decoded w :
  Forall2 (λ path d, decode_utf8 path = Some d) paths decoded →
  _on_drop paths w = (Ok tt, with_calls w (flat_map drop_calls decoded)).
Proof.
  intros Hd. revert w. induction Hd as [|path d paths decoded Hp _ IH]; intros w.
  - cbn. by rewrite with_calls_nil.
  - cbn [_on_drop flat_map]. rewrite Hp. unfold drop_calls at 1.
    destruct (endswith d dot_ply); run; rewrite IH;
      unfold with_calls, log_call; cbn; by rewrite <- ?app_assoc.
Qed.


(** *** Nothing assigns [_edges_mode] *)

Lemma unassigned_silent {A} (m : @M num A) :
  (∀ w, self (m w).2 = self w) → leaves_edges_mode_unassigned m.
Proof. intros Hm w Hw. by rewrite Hm. Qed.

Lemma unassigned_modify g :
  (∀ f, _edges_mode (g f) = _edges_mode f) →
  leaves_edges_mode_unassigned (modify g).
Proof. intros Hg w Hw. cbn. by rewrite Hg. Qed.

Lemma unassigned_await c : leaves_edges_mode_unassigned (await env c).
Proof.
  intros w Hw. unfold await. by destruct (env_raises env (calls w) c).
Qed.

Lemma unassigned_lift {A} (r : Res A) :
  leaves_edges_mode_unassigned (num := num) (lift r).
Proof. destruct r; by apply unassigned_silent. Qed.

Lemma unassigned_bind {A C} (m : @M num A) (k : A → @M num C) :
  leaves_edges_mode_unassigned m →
  (∀ a, leaves_edges_mode_unassigned (k a)) →
  leaves_edges_mode_unassigned (bind m k).
Proof.
  intros Hm Hk w Hw. unfold bind. specialize (Hm w Hw).
  destruct (m w) as [[a|e] w1]; [by apply Hk|done].
Qed.

Lemma unassigned_bind_get_self {C} (k : @Frame3D num → M C) :
  (∀ f, _edges_mode f = None → leaves_edges_mode_unassigned (k f)) →
  leaves_edges_mode_unassigned (bind get_self k).
Proof. intros Hk w Hw. unfold bind. cbn [get_self]. by apply Hk. Qed.

Lemma unassigned_try {A} (m : @M num A) :
  leaves_edges_mode_unassigned m → leaves_edges_mode_unassigned (try m).
Proof.
  intros Hm w Hw. unfold try. specialize (Hm w Hw). by destruct (m w).
Qed.

Ltac unassigned_step :=
  match goal with
  | H : _edges_mode ?f = None
    |- leaves_edges_mode_unassigned (match _edges_mode ?f with _ => _ end) =>
      rewrite H
  | |- leaves_edges_mode_unassigned (bind get_self _) =>
      apply unassigned_bind_get_self; intros ? ?
  | |- leaves_edges_mode_unassigned (bind _ _) =>
      apply unassigned_bind; [|intros ?]
  | |- leaves_edges_mode_unassigned (modify _) =>
      apply unassigned_modify; intros ?; reflexivity
  | |- leaves_edges_mode_unassigned (await _ _) => apply unassigned_await
  | |- leaves_edges_mode_unassigned (lift _) => apply unassigned_lift
  | |- leaves_edges_mode_unassigned (try _) => apply unassigned_try
  | |- leaves_edges_mode_unassigned (if ?b then _ else _) => destruct b
  | |- leaves_edges_mode_unassigned (match ?x with _ => _ end) => destruct x
  | |- leaves_edges_mode_unassigned (let _ := _ in _) => cbv zeta
  | |- leaves_edges_mode_unassigned _ => by apply unassigned_silent
  end.

Lemma invoke_callbacks_unassigned cbs key scancode action mods :
  leaves_edges_mode_unassigned (num := num)
    (invoke_callbacks cbs key scancode action mods).
Proof.
  intros w Hw. by rewrite invoke_callbacks_spec.
Qed.

Lemma _on_drop_unassigned paths :
  leaves_edges_mode_unassigned (num := num) (_on_drop paths).
Proof.
  induction paths as [|path paths IH]; cbn [_on_drop];
    repeat first [exact IH | unassigned_step].
Qed.

Lemma run_op_unassigned o : leaves_edges_mode_unassigned (run_op env o).
Proof.
  destruct o as [e| |task|t]; [destruct e|..|destruct task|destruct t];
    unfold run_op, dispatch, render, _gl_update_viewport, run_action, run_task,
      _on_mouse_button, on_pressed, _on_mouse_double_click, _on_scroll,
      _on_mouse_move, _on_keyboard, _on_resize, _camera_look_at_cursor,
      _make_screenshot_and_save, read_and_register, add_points_cloud,
      determine_and_print, _determine_cursor_position, _print_cursor_position,
      update;
    repeat first [apply invoke_callbacks_unassigned | apply _on_drop_unassigned
                 | unassigned_step].
Qed.

Lemma run_ops_unassigned ops w :
  _edges_mode (self w) = None → _edges_mode (self (run_ops env ops w)) = None.
Proof.
  revert w. induction ops as [|o ops IH]; intros w Hw; [done|].
  cbn [run_ops]. by apply IH, run_op_unassigned.
Qed.

(** While [_edges_mode] has never been assigned, a press of E raises
    [AttributeError] before anything is changed. *)
Lemma edge_key_raises_while_unassigned w scancode mods :
  _edges_mode (self w) = None →
  _on_keyboard glfw.KEY_E scancode glfw.PRESS mods w = (Raise AttributeError, w).
Proof.
  intros He. unfold _on_keyboard.
  destruct (decide (glfw.PRESS = glfw.PRESS)); [|done].
  destruct (decide (glfw.KEY_E = glfw.KEY_LEFT_ALT)) as [E|_]; [discriminate E|].
  destruct (decide (glfw.KEY_E = glfw.KEY_P)) as [E|_]; [discriminate E|].
  destruct (decide (glfw.KEY_E = glfw.KEY_E)); [|done].
  run. by rewrite He.
Qed.

(** C6 (what the code does). The constructor never assigns [_edges_mode]
    and neither does anything that runs afterwards, so a press of E, the
    first one and any later one, raises [AttributeError] where it reads the
    flag: the flag is not toggled, no redraw is requested, the key is not
    recorded and no subscriber is notified. *)
Theorem edge_key_raises_on_every_press width height title camera_mode ops
    scancode mods :
  match __init__ (num := num) width height title camera_mode with
  | Ok w =>
    _edges_mode (self w) = None
    ∧ _on_keyboard glfw.KEY_E scancode glfw.PRESS mods (run_ops env ops w)
      = (Raise AttributeError, run_ops env ops w)
  | Raise _ => True
  end.
Proof.
  unfold __init__. destruct (truediv height width); [|done].
  split; [done|]. by apply edge_key_raises_while_unassigned, run_ops_unassigned.
Qed.

(** *** Where the statements above stop *)


(** X2. A path that does not decode makes [_on_drop] raise when it reaches
    it: the paths before it have been handled, the paths after it are not
    looked at. *)
Theorem undecodable_path_ends_the_drop w good decoded bad rest :
  Forall2 (λ path d, decode_utf8 path = Some d) good decoded →
  decode_utf8 bad = None →
  _on_drop (good ++ bad :: rest) w
  = (Raise UnicodeDecodeError, with_calls w (flat_map drop_calls decoded)).
Proof.
  intros Hd Hb. revert w.
  induction Hd as [|path d paths decoded Hp _ IH]; intros w.
  - cbn [app _on_drop flat_map]. rewrite Hb. by rewrite with_calls_nil.
  - cbn [app _on_drop flat_map]. rewrite Hp. unfold drop_calls at 1.
    destruct (endswith d dot_ply); run; rewrite IH;
      unfold with_calls, log_call; cbn; by rewrite <- ?app_assoc.
Qed.

(** X3. A resize to width 0 stores the size and stales the viewport, then
    raises at the division: the aspect is not assigned and no redraw is
    requested. *)
Theorem resize_to_zero_width_raises w height :
  _on_resize 0 height w
  = (Raise ZeroDivisionError,
     with_calls
       (with_self w (set_viewport_actual false (set_size 0 height (self w))))
       [Log DEBUG (MsgResize 0 height)]).
Proof. reflexivity. Qed.

(** *** Which callbacks raise *)

Lemma returns_ret {A} (a : A) : returns (num := num) (ret a).
Proof. intros w. by exists a. Qed.

Lemma returns_bind {A C} (m : @M num A) (k : A → @M num C) :
  returns m → (∀ a, returns (k a)) → returns (bind m k).
Proof.
  intros Hm Hk w. unfold bind. destruct (Hm w) as [a Ha].
  destruct (m w) as [r w1]. cbn in Ha. subst r. apply Hk.
Qed.

Lemma returns_try {A} (m : @M num A) : returns (try m).
Proof. intros w. unfold try. destruct (m w). by eexists. Qed.

Ltac returns_step :=
  lazymatch goal with
  | |- returns (bind _ _) => apply returns_bind; [|intros ?]
  | |- returns (try _) => apply returns_try
  | |- returns (if ?b then _ else _) => destruct b
  | |- returns (match ?x with _ => _ end) => destruct x
  | |- returns (let _ := _ in _) => cbv zeta
  | |- returns (ret _) => apply returns_ret
  | |- returns get_self => intros ?; by eexists
  | |- returns get_should_close => intros ?; by eexists
  | |- returns (set_should_close _) => intros ?; by eexists
  | |- returns (modify _) => intros ?; by eexists
  | |- returns (call _) => intros ?; by eexists
  | |- returns (ask _ _) => intros ?; by eexists
  end.






(** *** Pressed keys and buttons *)

(** A program that returns and respects a view runs to a state with that
    view unchanged. *)
Lemma bind_quiet {B C} (proj : @Frame3D num → B) (ok : Call num → bool)
    (m : @M num unit) (k : unit → @M num C) w :
  returns m → respects proj ok m →
  ∃ w1, bind m k w = k tt w1 ∧ proj (self w1) = proj (self w).
Proof.
  intros Hr Hp. destruct (Hr w) as [[] Ha]. destruct (Hp w) as [Hs _].
  unfold bind. destruct (m w) as [r w1]. cbn in Ha, Hs. subst r.
  by exists w1.
Qed.

Lemma key_release_spec w key scancode mods :
  ∃ w1, _on_keyboard key scancode glfw.RELEASE mods w = (Ok tt, w1)
        ∧ _keyboard_buttons_down (self w1)
          = delete key (_keyboard_buttons_down (self w)).
Proof.
  unfold _on_keyboard.
  destruct (decide (glfw.RELEASE = glfw.PRESS)) as [E|_]; [discriminate E|].
  destruct (decide (glfw.RELEASE = glfw.RELEASE)) as [_|N]; [|done].
  run.
  destruct (decide (is_Some (_keyboard_buttons_down (self w) !! key)))
    as [Hk|Hk]; run; rewrite invoke_callbacks_spec; eexists;
    (split; [reflexivity|]); cbn; [done|].
  symmetry. apply delete_id. by apply eq_None_not_Some.
Qed.

Lemma key_press_spec w key scancode mods :
  key ≠ glfw.KEY_E →
  ∃ w1, _on_keyboard key scancode glfw.PRESS mods w = (Ok tt, w1)
        ∧ _keyboard_buttons_down (self w1)
          = <[key := mods]> (_keyboard_buttons_down (self w)).
Proof.
  intros Hk. unfold _on_keyboard, _print_cursor_position, update.
  destruct (decide (glfw.PRESS = glfw.PRESS)); [|done].
  destruct (decide (key = glfw.KEY_E)); [done|].
  unfold bind at 1.
  repeat match goal with
  | |- context [bind ?m ?k w] =>
      destruct (bind_quiet _keyboard_buttons_down (λ _, true) m k w)
        as (w1 & -> & H1); [repeat returns_step|respects_tac|];
      try (rewrite <- H1; clear H1); clear w; rename w1 into w
  end.
run. rewrite invoke_callbacks_spec. by eexists.
Qed.

(** X5. A key press that is handled (any key but E) records the key with
    its modifier mask, so that [_is_button_down] holds for exactly that
    mask; the release removes the record, whatever modifiers it carries.  A
    press and release of a key that was not recorded leaves the map as it
    was. *)
Theorem key_press_release_round_trip w key scancode scancode' mods mods' w1 w2 :
  key ≠ glfw.KEY_E →
  w1 = (_on_keyboard key scancode glfw.PRESS mods w).2 →
  w2 = (_on_keyboard key scancode' glfw.RELEASE mods' w1).2 →
  _keyboard_buttons_down (self w1)
    = <[key := mods]> (_keyboard_buttons_down (self w))
  ∧ (∀ m, _is_button_down key m (self w1) = bool_decide (mods = m))
  ∧ _keyboard_buttons_down (self w2) = delete key (_keyboard_buttons_down (self w))
  ∧ (∀ m, _is_button_down key m (self w2) = false)
  ∧ (_keyboard_buttons_down (self w) !! key = None →
     _keyboard_buttons_down (self w2) = _keyboard_buttons_down (self w)).
Proof.
  intros Hk -> ->.
  destruct (key_press_spec w key scancode mods Hk) as (w1 & -> & H1).
  cbn [snd].
  destruct (key_release_spec w1 key scancode' mods') as (w2 & -> & H2).
  cbn [snd]. rewrite H2, H1, delete_insert_eq.
  split; [done|]. split.
  { intros m. unfold _is_button_down. by rewrite H1, lookup_insert_eq. }
  split; [done|]. split.
  { intros m. unfold _is_button_down. by rewrite H2, H1, lookup_delete_eq. }
  apply delete_id.
Qed.

Lemma on_pressed_respects button :
  respects _mouse_buttons_down (λ _, true) (on_pressed env button).
Proof.
  unfold on_pressed, _on_mouse_double_click, update. respects_tac.
Qed.

(** X6. A mouse press puts the button into the pressed set and hands the
    press to the double-click detector; the release takes the button out.
    Neither raises, other buttons stay as they were, and a press and release
    of a button that was not held leaves the set as it was. *)
Theorem mouse_press_release_round_trip w button mods mods' w1 w2 :
  w1 = (_on_mouse_button env button glfw.PRESS mods w).2 →
  w2 = (_on_mouse_button env button glfw.RELEASE mods' w1).2 →
  (_on_mouse_button env button glfw.PRESS mods w).1 = Ok tt
  ∧ (_on_mouse_button env button glfw.RELEASE mods' w1).1 = Ok tt
  ∧ _mouse_buttons_down (self w1) = {[button]} ∪ _mouse_buttons_down (self w)
  ∧ _mouse_buttons_down (self w2) = _mouse_buttons_down (self w) ∖ {[button]}
  ∧ (∃ rest, emitted w w1 = DoubleClickOnPressed button :: rest)
  ∧ (button ∉ _mouse_buttons_down (self w) →
     _mouse_buttons_down (self w2) = _mouse_buttons_down (self w)).
Proof.
  intros -> ->.
  assert (∃ w1 rest,
            _on_mouse_button env button glfw.PRESS mods w = (Ok tt, w1)
            ∧ _mouse_buttons_down (self w1)
              = {[button]} ∪ _mouse_buttons_down (self w)
            ∧ calls w1 = calls w ++ DoubleClickOnPressed button :: rest)
    as (w1 & rest & -> & H1 & Hc).
  { unfold _on_mouse_button.
    destruct (decide (glfw.PRESS = glfw.PRESS)); [|done]. run.
    match goal with |- context [on_pressed env button ?w0] => set (w0' := w0) end.
    destruct (on_pressed_respects button w0') as [Hs _].
    assert (∃ w1 rest, on_pressed env button w0' = (Ok tt, w1)
                       ∧ calls w1 = calls w ++ DoubleClickOnPressed button :: rest)
      as (w1 & rest & Ho & Hc).
    { unfold on_pressed, _on_mouse_double_click, update. run.
      destruct (env_double_click env _ button);
        [destruct (decide (button = glfw.MOUSE_BUTTON_LEFT))|]; run;
        eexists _, _; (split; [reflexivity|]); cbn;
        rewrite <- ?app_assoc; reflexivity. }
    rewrite Ho in Hs |- *. exists w1, rest. by repeat split. }
  cbn [snd].
  assert (∃ w2, _on_mouse_button env button glfw.RELEASE mods' w1 = (Ok tt, w2)
                ∧ _mouse_buttons_down (self w2)
                  = _mouse_buttons_down (self w1) ∖ {[button]})
    as (w2 & -> & H2).
  { unfold _on_mouse_button.
    destruct (decide (glfw.RELEASE = glfw.PRESS)) as [E|_]; [discriminate E|].
    destruct (decide (glfw.RELEASE = glfw.RELEASE)) as [_|N]; [|done]. run.
    destruct (decide (button ∈ _mouse_buttons_down (self w1))) as [Hb|Hb];
      run; eexists; (split; [reflexivity|]); cbn; [done|].
    symmetry. by apply difference_disjoint_L, disjoint_singleton_r. }
  cbn [fst snd]. rewrite H2, H1.
  assert (({[button]} ∪ _mouse_buttons_down (self w)) ∖ {[button]}
          = _mouse_buttons_down (self w) ∖ {[button]}) as Hd.
  { by rewrite difference_union_distr_l_L, difference_diag_L, union_empty_l_L. }
  repeat split; [exact Hd|exists rest; by apply emitted_app|].
  intros Hb. rewrite Hd. by apply difference_disjoint_L, disjoint_singleton_r.
Qed.

(** X7. A press of P flips the camera between perspective and orthographic,
    keeps the aspect, requests a redraw and returns; a second press brings
    the camera back. *)
Theorem projection_key_toggles w scancode scancode' mods mods' w1 w2 :
  w1 = (_on_keyboard glfw.KEY_P scancode glfw.PRESS mods w).2 →
  w2 = (_on_keyboard glfw.KEY_P scancode' glfw.PRESS mods' w1).2 →
  (_on_keyboard glfw.KEY_P scancode glfw.PRESS mods w).1 = Ok tt
  ∧ mode (_camera (self w1)) = other_mode (mode (_camera (self w)))
  ∧ aspect (_camera (self w1)) = aspect (_camera (self w))
  ∧ (∃ rest, emitted w w1
             = FpsUpdate
               :: Log DEBUG (MsgUsingCamera (other_mode (mode (_camera (self w)))))
               :: rest)
  ∧ _camera (self w2) = _camera (self w).
Proof.
  assert (∀ w0 sc m,
            ∃ w', _on_keyboard glfw.KEY_P sc glfw.PRESS m w0 = (Ok tt, w')
                  ∧ _camera (self w')
                    = set_mode (other_mode (mode (_camera (self w0))))
                        (_camera (self w0))
                  ∧ ∃ rest, calls w'
                            = calls w0 ++ FpsUpdate
                              :: Log DEBUG (MsgUsingCamera
                                   (other_mode (mode (_camera (self w0)))))
                              :: rest) as Hp.
  { intros w0 sc m. unfold _on_keyboard, update.
    destruct (decide (glfw.PRESS = glfw.PRESS)); [|done].
    destruct (decide (glfw.KEY_P = glfw.KEY_LEFT_ALT)) as [E|_]; [discriminate E|].
    destruct (decide (glfw.KEY_P = glfw.KEY_P)); [|done].
    destruct (decide (glfw.KEY_P = glfw.KEY_E)) as [E|_]; [discriminate E|].
    destruct (decide (glfw.KEY_P = glfw.KEY_ESCAPE)) as [E|_]; [discriminate E|].
    destruct (decide (glfw.KEY_P = glfw.KEY_S)) as [E|_]; [discriminate E|].
    run. destruct (mode (_camera (self w0))) eqn:Hm; run;
      rewrite invoke_callbacks_spec; eexists; (split; [reflexivity|]); cbn;
      (split; [done|]); eexists; rewrite <- ?app_assoc; reflexivity. }
  intros -> ->.
  destruct (Hp w scancode mods) as (w1 & -> & H1 & rest & Hc).
  cbn [snd].
  destruct (Hp w1 scancode' mods') as (w2 & -> & H2 & _).
  cbn [fst snd]. rewrite H2, H1. cbn. repeat split.
  - exists rest. by apply emitted_app.
  - destruct (_camera (self w)) as [a []]; reflexivity.
Qed.

(** *** Redraw requests *)

Lemma redraws_quiet {A} (m : @M num A) :
  respects _camera not_camera_call m → redraws m.
Proof.
  intros Hm w. destruct (Hm w) as (Hs & tr & Hc & Ht). exists tr. auto.
Qed.

Lemma redraws_bind {A C} (m : @M num A) (k : A → @M num C) :
  redraws m → (∀ a, redraws (k a)) → redraws (bind m k).
Proof.
  intros Hm Hk w. unfold bind. destruct (Hm w) as (tr & Hc & Ht).
  destruct (m w) as [[a|e] w1]; cbn in *; [|by exists tr].
  destruct (Hk a w1) as (tr' & Hc' & Ht'). exists (tr ++ tr'). split.
  { by rewrite Hc', Hc, <- app_assoc. }
  destruct Ht as [Ht|[Hs Ht]]; [left; apply in_or_app; auto|].
  destruct Ht' as [Ht'|[Hs' Ht']]; [left; apply in_or_app; auto|].
  right. split; [congruence|]. by rewrite forallb_app, Ht, Ht'.
Qed.

Lemma redraws_call_update c : redraws (num := num) (bind (call c) (λ _, update)).
Proof.
  intros w. exists [c; FpsUpdate]. split.
  - cbn. by rewrite <- app_assoc.
  - left. cbn. auto.
Qed.

Lemma redraws_modify_update g :
  redraws (num := num) (bind (modify g) (λ _, update)).
Proof. intros w. exists [FpsUpdate]. split; [done|]. left. cbn. auto. Qed.

Lemma redraws_try {A} (m : @M num A) : redraws m → redraws (try m).
Proof. intros Hm w. unfold try. specialize (Hm w). by destruct (m w). Qed.

Ltac redraws_step :=
  lazymatch goal with
  | |- redraws (bind (call _) (λ _, update)) => apply redraws_call_update
  | |- redraws (bind (modify _) (λ _, update)) => apply redraws_modify_update
  | |- redraws (bind _ _) => apply redraws_bind; [|intros ?]
  | |- redraws (if ?b then _ else _) => destruct b
  | |- redraws (match ?x with _ => _ end) => destruct x
  | |- redraws (let _ := _ in _) => cbv zeta
  | |- redraws _ => apply redraws_quiet; unfold update; respects_tac
  end.

Lemma invoke_callbacks_quiet {B} (proj : @Frame3D num → B) cbs key scancode action mods :
  respects proj not_camera_call (invoke_callbacks cbs key scancode action mods).
Proof.
  induction cbs as [|[name cb] cbs IH]; cbn [invoke_callbacks]; respects_tac.
  exact IH.
Qed.

Lemma invoke_callbacks_respects_any {B} (proj : @Frame3D num → B) cbs key scancode
    action mods :
  respects proj (λ _, true) (invoke_callbacks cbs key scancode action mods).
Proof.
  induction cbs as [|[name cb] cbs IH]; cbn [invoke_callbacks]; respects_tac.
  exact IH.
Qed.

Lemma _on_drop_quiet {B} (proj : @Frame3D num → B) paths :
  respects proj not_camera_call (_on_drop paths).
Proof.
  induction paths as [|path paths IH]; cbn [_on_drop]; respects_tac.
  all: exact IH.
Qed.

Lemma dispatch_redraws e : redraws (dispatch env e).
Proof.
  destruct e;
    unfold dispatch, _on_mouse_button, on_pressed, _on_mouse_double_click,
      _on_scroll, _on_mouse_move, _on_keyboard, _on_resize,
      _print_cursor_position;
    repeat first [ apply redraws_quiet, invoke_callbacks_quiet
                 | apply redraws_quiet, _on_drop_quiet
                 | redraws_step ].
Qed.

(** X8. A window callback that changes the camera requests a redraw: on any
    event, either [update()] is called, or the camera's mode and aspect are
    as before and none of its methods was called. *)
Theorem camera_change_requests_redraw e w :
  In FpsUpdate (emitted w (dispatch env e w).2)
  ∨ (_camera (self (dispatch env e w).2) = _camera (self w)
     ∧ forallb not_camera_call (emitted w (dispatch env e w).2) = true).
Proof.
  destruct (dispatch_redraws e w) as (tr & Hc & Ht).
  by rewrite (emitted_app _ _ _ Hc).
Qed.

(** *** Cursor moves *)

(** X9. A cursor move with no previous position, or with neither the left
    nor the right button held, calls no camera method and requests no
    redraw: it records the position, with y counted from the bottom of the
    stored height, and starts the cursor probe when left alt is recorded
    with no modifiers.  It never raises. *)
Theorem idle_cursor_move_only_records w x y :
  (_last_mouse_xy (self w) = None
   ∨ ((glfw.MOUSE_BUTTON_LEFT ∉ _mouse_buttons_down (self w))
      ∧ (glfw.MOUSE_BUTTON_RIGHT ∉ _mouse_buttons_down (self w)))) →
  _on_mouse_move x y w
  = (Ok tt,
     with_calls
       (with_self w
          (set_last_mouse_xy (Some (x, fsub (of_int (_height (self w))) y)) (self w)))
       (if _is_button_down glfw.KEY_LEFT_ALT 0 (self w)
        then [WrapExc DetermineAndPrint] else [])).
Proof.
  intros Hi. unfold _on_mouse_move, _print_cursor_position. run.
  destruct (_is_button_down glfw.KEY_LEFT_ALT 0 (self w));
    (destruct Hi as [->|[Hl Hr]];
     [|destruct (_last_mouse_xy (self w)) as [[lx ly]|];
       [destruct (decide (glfw.MOUSE_BUTTON_LEFT ∈ _mouse_buttons_down (self w)));
          [done|];
        destruct (decide (glfw.MOUSE_BUTTON_RIGHT ∈ _mouse_buttons_down (self w)));
          [done|]|]]);
    run; unfold with_calls, with_self, log_call; cbn;
    rewrite ?app_nil_r; reflexivity.
Qed.

(** X10. A cursor move while only the left button is held, with a previous
    position known, rotates the camera by the raw pixel deltas (the
    vertical one counted upwards) and requests a redraw. *)
Theorem left_drag_rotates_by_pixels w x y lx ly :
  glfw.MOUSE_BUTTON_LEFT ∈ _mouse_buttons_down (self w) →
  glfw.MOUSE_BUTTON_RIGHT ∉ _mouse_buttons_down (self w) →
  _last_mouse_xy (self w) = Some (lx, ly) →
  _on_mouse_move x y w
  = (Ok tt,
     with_calls
       (with_self w
          (set_last_mouse_xy (Some (x, fsub (of_int (_height (self w))) y)) (self w)))
       ((if _is_button_down glfw.KEY_LEFT_ALT 0 (self w)
         then [WrapExc DetermineAndPrint] else [])
        ++ [CameraRotate (fsub x lx) (fsub (fsub (of_int (_height (self w))) y) ly);
            FpsUpdate])).
Proof.
  intros Hl Hr Hx. unfold _on_mouse_move, _print_cursor_position. run.
  rewrite Hx.
  destruct (decide (glfw.MOUSE_BUTTON_LEFT ∈ _mouse_buttons_down (self w)));
    [|done].
  destruct (decide (glfw.MOUSE_BUTTON_RIGHT ∈ _mouse_buttons_down (self w)));
    [done|].
  destruct (_is_button_down glfw.KEY_LEFT_ALT 0 (self w)); run;
    unfold with_calls, with_self, log_call; cbn; rewrite <- ?app_assoc;
    reflexivity.
Qed.

(** *** The close flag *)

Lemma preserves_silent (I : World num → Prop) {A} (m : @M num A) :
  (∀ w, (m w).2 = w) → preserves I m.
Proof. intros Hm w Hw. by rewrite Hm. Qed.

Lemma preserves_bind (I : World num → Prop) {A C} (m : @M num A)
    (k : A → @M num C) :
  preserves I m → (∀ a, preserves I (k a)) → preserves I (bind m k).
Proof.
  intros Hm Hk w Hw. unfold bind. specialize (Hm w Hw).
  destruct (m w) as [[a|e] w1]; [by apply Hk|done].
Qed.

Lemma preserves_try (I : World num → Prop) {A} (m : @M num A) :
  preserves I m → preserves I (try m).
Proof. intros Hm w Hw. unfold try. specialize (Hm w Hw). by destruct (m w). Qed.

Lemma preserves_lift (I : World num → Prop) {A} (r : Res A) :
  preserves I (lift r).
Proof. destruct r; by apply preserves_silent. Qed.

Lemma preserves_await (I : World num → Prop) c :
  (∀ w, I w → I (log_call c w)) → preserves I (await env c).
Proof.
  intros Hc w Hw. unfold await.
  destruct (env_raises env (calls w) c); by apply Hc.
Qed.

(** [tac] proves that [I] survives one primitive step. *)
Ltac preserves_step tac :=
  lazymatch goal with
  | |- preserves _ (bind _ _) => apply preserves_bind; [|intros ?]
  | |- preserves _ (try _) => apply preserves_try
  | |- preserves _ (lift _) => apply preserves_lift
  | |- preserves _ (if ?b then _ else _) => destruct b
  | |- preserves _ (match ?x with _ => _ end) => destruct x
  | |- preserves _ (let _ := _ in _) => cbv zeta
  | |- preserves _ (await _ _) => apply preserves_await; intros ? ?; tac
  | |- preserves _ (call _) => intros ? ?; tac
  | |- preserves _ (modify _) => intros ? ?; tac
  | |- preserves _ (set_should_close _) => intros ? ?; tac
  | |- preserves _ _ => by apply preserves_silent
  end.

Lemma run_op_keeps_closing o : preserves closing_flag (run_op env o).
Proof.
  assert (∀ cbs key scancode action mods,
            preserves closing_flag
              (invoke_callbacks (num := num) cbs key scancode action mods)) as Hcb.
  { intros. intros w Hw. by rewrite invoke_callbacks_spec. }
  assert (∀ paths, preserves closing_flag (_on_drop (num := num) paths)) as Hdrop.
  { induction paths as [|path paths IH]; cbn [_on_drop];
      repeat first [exact IH | preserves_step ltac:(assumption)]. }
  destruct o as [e| |task|t]; [destruct e|..|destruct task|destruct t];
    unfold run_op, dispatch, render, _gl_update_viewport, run_action, run_task,
      _on_mouse_button, on_pressed, _on_mouse_double_click, _on_scroll,
      _on_mouse_move, _on_keyboard, _on_resize, _camera_look_at_cursor,
      _make_screenshot_and_save, read_and_register, add_points_cloud,
      determine_and_print, _determine_cursor_position, _print_cursor_position,
      update;
    repeat first [apply Hcb | apply Hdrop
                 | preserves_step ltac:(first [assumption | reflexivity])].
Qed.

Lemma run_ops_keeps_closing ops w :
  should_close w = true → should_close (run_ops env ops w) = true.
Proof.
  revert w. induction ops as [|o ops IH]; intros w Hw; [done|].
  cbn [run_ops]. by apply IH, run_op_keeps_closing.
Qed.

(** X11. A close request is final.  A press of Escape and a close request
    from the window system both raise the window's close flag; nothing the
    object runs afterwards (callbacks, renders, deferred actions, tasks)
    lowers it; and [render_loop] returns at its next check of the flag,
    without polling, draining or rendering again. *)
Theorem close_request_is_final w scancode mods ops n :
  ∀ e w', (e = EvKey glfw.KEY_ESCAPE scancode glfw.PRESS mods ∨ e = EvClose) →
    w' = run_ops env ops (dispatch env e w).2 →
    should_close w' = true
    ∧ loop env (S n) w' = (Ok Closed, with_calls w' [WindowShouldClose]).
Proof.
  assert (∀ w', should_close w' = true →
            loop env (S n) w' = (Ok Closed, with_calls w' [WindowShouldClose]))
    as Hloop.
  { intros w' Hw'. cbn [loop]. unfold bind at 1. cbn [call]. unfold bind at 1.
    cbn [get_should_close log_call should_close]. by rewrite Hw'. }
  intros e w' He ->.
  assert (should_close (dispatch env e w).2 = true) as Hd.
  { destruct He as [-> | ->]; [|done]. cbn [dispatch].
    unfold _on_keyboard, update.
    destruct (decide (glfw.PRESS = glfw.PRESS)); [|done].
    destruct (decide (glfw.KEY_ESCAPE = glfw.KEY_LEFT_ALT)) as [E|_];
      [discriminate E|].
    destruct (decide (glfw.KEY_ESCAPE = glfw.KEY_P)) as [E|_]; [discriminate E|].
    destruct (decide (glfw.KEY_ESCAPE = glfw.KEY_E)) as [E|_]; [discriminate E|].
    destruct (decide (glfw.KEY_ESCAPE = glfw.KEY_ESCAPE)); [|done].
    destruct (decide (glfw.KEY_ESCAPE = glfw.KEY_S)) as [E|_]; [discriminate E|].
    run. by rewrite invoke_callbacks_spec. }
  split; [|apply Hloop]; by apply run_ops_keeps_closing.
Qed.

(** *** The deferred queue between drains *)

Lemma _on_keyboard_keeps_to_do key scancode action mods :
  ¬ (key = glfw.KEY_S ∧ action = glfw.PRESS) →
  respects _to_do (λ _, true) (_on_keyboard (num := num) key scancode action mods).
Proof.
  intros Hk. unfold _on_keyboard, _print_cursor_position, update.
  destruct (decide (action = glfw.PRESS)) as [Ha|Ha].
  - destruct (decide (key = glfw.KEY_S)) as [Hs|Hs]; [by destruct Hk|].
    respects_tac. apply invoke_callbacks_respects_any.
  - respects_tac. apply invoke_callbacks_respects_any.
Qed.

(** X12. Window callbacks only ever append to [_to_do]: a left-button press
    that the detector classifies as a double click appends one focus action,
    a press of S appends one screenshot action, and no other event changes
    the queue.  Renders, deferred actions and background tasks leave it as
    it is, so the actions pending when a drain starts are those enqueued
    since the last one, in order. *)
Theorem callbacks_only_append_to_queue w :
  (∀ e, _to_do (self (dispatch env e w).2) = _to_do (self w) ++ enqueued env e w)
  ∧ _to_do (self (render env w).2) = _to_do (self w)
  ∧ (∀ task, _to_do (self (run_action env task w).2) = _to_do (self w))
  ∧ (∀ t, _to_do (self (run_task env t w).2) = _to_do (self w)).
Proof.
  split; [|split; [|split]].
  - intros e.
    destruct e as [button action mods|x y|x y|key scancode action mods|paths
                  |width height|]; cbn [dispatch enqueued].
    + unfold _on_mouse_button, on_pressed, _on_mouse_double_click, update.
      destruct (decide (action = glfw.PRESS)) as [->|Ha].
      * run. cbn [calls log_call].
        destruct (decide (button = glfw.MOUSE_BUTTON_LEFT ∧ glfw.PRESS = glfw.PRESS))
          as [[-> _]|Hn].
        -- destruct (decide (glfw.MOUSE_BUTTON_LEFT = glfw.MOUSE_BUTTON_LEFT));
             [|done].
           destruct (env_double_click env _ glfw.MOUSE_BUTTON_LEFT); run; cbn;
             [done|by rewrite app_nil_r].
        -- destruct (decide (button = glfw.MOUSE_BUTTON_LEFT)) as [->|Hb];
             [by destruct Hn|].
           rewrite app_nil_r. by destruct (env_double_click env _ button).
      * destruct (decide (button = glfw.MOUSE_BUTTON_LEFT ∧ action = glfw.PRESS))
          as [[]|_]; [done|].
        rewrite app_nil_r.
        destruct (decide (action = glfw.RELEASE)); run; [|done].
        by destruct (decide (button ∈ _mouse_buttons_down (self w))).
    + rewrite app_nil_r. unfold _on_scroll, update.
      by destruct (negb (feqb y (of_int 0))).
    + rewrite app_nil_r.
      assert (respects _to_do (λ _, true) (_on_mouse_move (num := num) x y)) as Hm
        by (unfold _on_mouse_move, _print_cursor_position, update; respects_tac).
      apply Hm.
    + destruct (decide (key = glfw.KEY_S ∧ action = glfw.PRESS)) as [[-> ->]|Hk].
      * unfold _on_keyboard, update.
        destruct (decide (glfw.PRESS = glfw.PRESS)); [|done].
        destruct (decide (glfw.KEY_S = glfw.KEY_LEFT_ALT)) as [E|_];
          [discriminate E|].
        destruct (decide (glfw.KEY_S = glfw.KEY_P)) as [E|_]; [discriminate E|].
        destruct (decide (glfw.KEY_S = glfw.KEY_E)) as [E|_]; [discriminate E|].
        destruct (decide (glfw.KEY_S = glfw.KEY_ESCAPE)) as [E|_];
          [discriminate E|].
        destruct (decide (glfw.KEY_S = glfw.KEY_S)); [|done].
        run. by rewrite invoke_callbacks_spec.
      * rewrite app_nil_r. by apply _on_keyboard_keeps_to_do.
    + rewrite app_nil_r. apply (_on_drop_respects _to_do).
    + rewrite app_nil_r.
      assert (respects _to_do (λ _, true)
                (_on_resize (num := num) width height)) as Hr
        by (unfold _on_resize, update; respects_tac).
      apply Hr.
    + by rewrite app_nil_r.
  - destruct (render_respects w) as [Hs _]. by apply (f_equal _to_do) in Hs.
  - intros task. destruct (run_action_respects task w) as [Hs _].
    by apply (f_equal _to_do) in Hs.
  - intros t. destruct (run_task_respects t w) as [Hs _].
    by apply (f_equal _to_do) in Hs.
Qed.

(** *** The keyboard subscribers *)

Lemma dict_set_to_map k v d :
  list_to_map (dict_set k v d) =@{gmap string Z} <[k := v]> (list_to_map d).
Proof.
  induction d as [|[k' v'] d IH]; [done|]. cbn [dict_set].
  destruct (decide (k = k')) as [->|Hk].
  - by rewrite !list_to_map_cons, insert_insert_eq.
  - rewrite !list_to_map_cons, IH. by apply insert_insert_ne.
Qed.

Lemma dict_del_to_map k d :
  list_to_map (dict_del k d) =@{gmap string Z} delete k (list_to_map d).
Proof.
  unfold dict_del. induction d as [|[k' v'] d IH].
  { symmetry. apply delete_empty. }
  rewrite filter_cons. cbn [fst]. destruct (decide (k' ≠ k)) as [Hk|Hk].
  - rewrite !list_to_map_cons, IH. by rewrite delete_insert_ne.
  - apply dec_stable in Hk as ->. by rewrite list_to_map_cons, delete_insert_eq.
Qed.

Lemma dict_set_names k v d :
  (dict_set k v d).*1 = if decide (k ∈ d.*1) then d.*1 else d.*1 ++ [k].
Proof.
  induction d as [|[k' v'] d IH]; [done|]. cbn [dict_set].
  destruct (decide (k = k')) as [->|Hk].
  - rewrite decide_True by (cbn; left). done.
  - cbn. rewrite IH. destruct (decide (k ∈ d.*1)) as [Hd|Hd].
    + rewrite decide_True by (cbn; by right). done.
    + rewrite decide_False; [done|]. cbn. by intros [?|?]%elem_of_cons.
Qed.

Lemma dict_set_NoDup k v d : NoDup d.*1 → NoDup (dict_set k v d).*1.
Proof.
  intros Hd. rewrite dict_set_names. destruct (decide (k ∈ d.*1)); [done|].
  apply NoDup_app. split; [done|]. split; [|apply NoDup_singleton].
  intros x Hx ->%list_elem_of_singleton. done.
Qed.

Lemma dict_del_NoDup k d : NoDup d.*1 → NoDup (dict_del k d).*1.
Proof.
  unfold dict_del. induction d as [|[k' v'] d IH]; [done|].
  rewrite fmap_cons. intros [Hk' Hd]%NoDup_cons. rewrite filter_cons.
  cbn [fst] in *.
  destruct (decide (k' ≠ k)); [|by apply IH]. rewrite fmap_cons.
  apply NoDup_cons. cbn [fst].
  split; [|by apply IH]. intros (x & Hx & Hin)%list_elem_of_fmap.
  apply list_elem_of_filter in Hin as [_ Hin]. apply Hk'.
  apply list_elem_of_fmap. by exists x.
Qed.

(** X13. Registering and unregistering keyboard subscribers acts on the
    subscribers as on a map from names to callbacks: registering binds the
    name to the new callback (replacing an earlier one, with a warning, and
    with no other subscriber affected), unregistering removes the name, and
    unregistering a name that is not registered raises [KeyError] and
    changes nothing.  Names stay distinct. *)
Theorem registrations_act_as_a_map r w :
  subscribers (self (apply_registration r w).2) = registered r (subscribers (self w))
  ∧ (apply_registration r w).1
    = match r with
      | Unregister name =>
        if decide (is_Some (subscribers (self w) !! name))
        then Ok tt else Raise KeyError
      | Register _ _ => Ok tt
      end
  ∧ emitted w (apply_registration r w).2
    = match r with
      | Register name _ =>
        if decide (is_Some (subscribers (self w) !! name))
        then [Log WARN (MsgCallbackAlreadyRegistered name)] else []
      | Unregister _ => []
      end
  ∧ (NoDup (_on_keyboard_callbacks (self w)).*1 →
     NoDup (_on_keyboard_callbacks (self (apply_registration r w).2)).*1).
Proof.
  assert (∀ name, dict_mem name (_on_keyboard_callbacks (self w)) = true
                  ↔ is_Some (subscribers (self w) !! name)) as Hmem.
  { intros name. unfold dict_mem, subscribers. rewrite bool_decide_eq_true.
    rewrite <- not_eq_None_Some, <- not_elem_of_list_to_map.
    split; [auto|apply dec_stable]. }
  destruct r as [name cb|name]; cbn [apply_registration registered].
  - unfold add_on_keyboard_callback. run.
    destruct (dict_mem name (_on_keyboard_callbacks (self w))) eqn:Hd.
    + apply Hmem in Hd. rewrite decide_True by done. run. cbn.
      unfold subscribers. cbn.
      split; [apply dict_set_to_map|]. split; [done|]. split.
      * by apply emitted_app.
      * apply dict_set_NoDup.
    + assert (¬ is_Some (subscribers (self w) !! name)) as Hn.
      { intros Hs%Hmem. congruence. }
      rewrite decide_False by done. run. cbn. unfold subscribers. cbn.
      split; [apply dict_set_to_map|]. split; [done|]. split.
      * apply emitted_app. by rewrite app_nil_r.
      * apply dict_set_NoDup.
  - unfold delete_on_keyboard_callback. run.
    destruct (dict_mem name (_on_keyboard_callbacks (self w))) eqn:Hd.
    + apply Hmem in Hd. rewrite decide_True by done. run. cbn.
      unfold subscribers. cbn.
      split; [apply dict_del_to_map|]. split; [done|]. split.
      * apply emitted_app. by rewrite app_nil_r.
      * apply dict_del_NoDup.
    + assert (¬ is_Some (subscribers (self w) !! name)) as Hn.
      { intros Hs%Hmem. congruence. }
      rewrite decide_False by done. run. cbn.
      split; [|split; [done|split; [|done]]].
      * symmetry. apply delete_id. by apply eq_None_not_Some.
      * apply emitted_app. by rewrite app_nil_r.
Qed.

Lemma bind_quiet_calls {B C} (proj : @Frame3D num → B) (ok : Call num → bool)
    (m : @M num unit) (k : unit → @M num C) w :
  returns m → respects proj ok m →
  ∃ w1 tr, bind m k w = k tt w1 ∧ proj (self w1) = proj (self w)
           ∧ calls w1 = calls w ++ tr ∧ forallb ok tr = true.
Proof.
  intros Hr Hp. destruct (Hr w) as [[] Ha].
  destruct (Hp w) as (Hs & tr & Hc & Ht).
  unfold bind. destruct (m w) as [r w1]. cbn in Ha, Hs, Hc. subst r.
  by exists w1, tr.
Qed.

Lemma run_op_keeps_subscribers o :
  respects _on_keyboard_callbacks (λ _, true) (run_op env o).
Proof.
  destruct o as [e| |task|t]; [destruct e|..|destruct task|destruct t];
    unfold run_op, dispatch, render, _gl_update_viewport, run_action, run_task,
      _on_mouse_button, on_pressed, _on_mouse_double_click, _on_scroll,
      _on_mouse_move, _on_keyboard, _on_resize, _camera_look_at_cursor,
      _make_screenshot_and_save, read_and_register, add_points_cloud,
      determine_and_print, _determine_cursor_position, _print_cursor_position,
      update;
    respects_tac;
    first [apply invoke_callbacks_respects_any
          | eapply respects_ok_weaken; [|apply _on_drop_respects]; done].
Qed.

(** X14. Every key event that the built-in handling gets through (all but a
    press of E with the flag unassigned) is then forwarded to every
    keyboard subscriber, once per registered entry, with the raw key,
    scancode, action and modifiers, after whatever the built-in handling
    called.  No callback, render, deferred action or task changes who is
    subscribed. *)
Theorem key_events_reach_subscribers w key scancode action mods :
  callback_error (EvKey key scancode action mods) (self w) = None →
  (_on_keyboard key scancode action mods w).1 = Ok tt
  ∧ (∃ before,
       emitted w (_on_keyboard key scancode action mods w).2
       = before ++ notifications (self w) key scancode action mods
       ∧ forallb not_keyboard_callback before = true)
  ∧ (∀ o, _on_keyboard_callbacks (self (run_op env o w).2)
          = _on_keyboard_callbacks (self w)).
Proof.
  intros He. cbn [callback_error] in He.
  assert (∃ w' before,
            _on_keyboard key scancode action mods w = (Ok tt, w')
            ∧ calls w' = calls w ++ before
                ++ notifications (self w) key scancode action mods
            ∧ forallb not_keyboard_callback before = true)
    as (w' & before & Hk & Hc & Hb).
  { destruct (decide (key = glfw.KEY_E ∧ action = glfw.PRESS)) as [[-> ->]|Hn].
    - destruct (_edges_mode (self w)) as [b|] eqn:Hb; [|discriminate He].
      unfold _on_keyboard, update.
      destruct (decide (glfw.PRESS = glfw.PRESS)); [|done].
      destruct (decide (glfw.KEY_E = glfw.KEY_LEFT_ALT)) as [E|_];
        [discriminate E|].
      destruct (decide (glfw.KEY_E = glfw.KEY_P)) as [E|_]; [discriminate E|].
      destruct (decide (glfw.KEY_E = glfw.KEY_E)); [|done].
      destruct (decide (glfw.KEY_E = glfw.KEY_ESCAPE)) as [E|_];
        [discriminate E|].
      destruct (decide (glfw.KEY_E = glfw.KEY_S)) as [E|_]; [discriminate E|].
      run. rewrite Hb. run. rewrite invoke_callbacks_spec.
      eexists _, [Log DEBUG (MsgRenderingEdgesMode (negb b)); FpsUpdate].
      split; [reflexivity|]. split; [|done].
      unfold with_calls, notifications. cbn. by rewrite <- !app_assoc.
    - unfold _on_keyboard.
      match goal with
      | |- context [bind ?m ?k w] =>
          destruct (bind_quiet_calls _on_keyboard_callbacks not_keyboard_callback
                      m k w) as (w1 & tr & -> & Hs & Hc & Ht)
      end.
      + unfold _print_cursor_position, update.
        destruct (decide (action = glfw.PRESS)) as [Ha|Ha].
        * destruct (decide (key = glfw.KEY_E)) as [Hk|Hk]; [by destruct Hn|].
          repeat returns_step.
        * repeat returns_step.
      + unfold _print_cursor_position, update. respects_tac.
      + run. rewrite invoke_callbacks_spec. eexists _, tr.
        split; [reflexivity|]. split; [|done].
        unfold with_calls, notifications. cbn. by rewrite Hs, Hc, <- app_assoc. }
  rewrite Hk. cbn [fst snd]. split; [done|]. split.
  - exists before. split; [by apply emitted_app|done].
  - intros o. apply run_op_keeps_subscribers.
Qed.

(** *** Screenshots *)







(** *** Rendering *)

(** X17. [render()] presents a frame (swaps buffers) exactly when it
    returns; it hands the scene to the renderer only with the viewport
    settled; and when it leaves the viewport stale, that is because
    [glViewport] raised, before anything was drawn, so that the next call
    tries the viewport again.  No other attribute is touched. *)
Theorem render_draws_on_a_settled_viewport w :
  ((render env w).1 = Ok tt ↔ In SwapBuffers (emitted w (render env w).2))
  ∧ (In RendererRender (emitted w (render env w).2) →
     _viewport_actual (self (render env w).2) = true)
  ∧ (_viewport_actual (self (render env w).2) = false →
     ∃ e, render env w
          = (Raise e,
             with_calls w [GlViewport 0 0 (_width (self w)) (_height (self w))]))
  ∧ set_viewport_actual true (self (render env w).2)
    = set_viewport_actual true (self w).
Proof.
  split; [|split; [|split]].
  4: { destruct (render_respects w) as [Hs _]. exact Hs. }
  all: unfold render, _gl_update_viewport; run;
    destruct (_viewport_actual (self w)) eqn:Hv; cbn [negb]; run.
  all: repeat match goal with
       | |- context [env_raises env ?hist ?c] =>
           let E := fresh "E" in destruct (env_raises env hist c) eqn:E; cbn
       end.
  all: try (erewrite emitted_app
              by (cbn; rewrite <- ?app_assoc; cbn; reflexivity)).
  all: try (split; [intros [=]|cbn; intros Hin;
                    repeat destruct Hin as [Hin|Hin]; try discriminate Hin;
                    destruct Hin]; fail).
  all: try (split; [intros _; cbn; tauto|done]; fail).
  all: try (intros _; assumption).
  all: try (intros _; reflexivity).
  all: try (intros Hin; cbn in Hin; repeat destruct Hin as [Hin|Hin];
            try discriminate Hin; destruct Hin; fail).
  all: try (intros Hf; congruence).
  all: intros _; eexists; unfold with_calls, log_call; cbn; reflexivity.
Qed.

(** *** Frames *)

Lemma handler_call_not_frame c : is_handler_call c = true → not_frame_call c = true.
Proof. by destruct c. Qed.

Lemma drain_call_not_frame c : is_drain_call c = true → not_frame_call c = true.
Proof. by destruct c. Qed.

Lemma not_frame_filter (tr : list (Call num)) :
  forallb not_frame_call tr = true → List.filter is_frame_call tr = [].
Proof.
  apply filter_none. unfold not_frame_call. by intros c ->%negb_true_iff.
Qed.

Lemma PollEvents_no_frame evs :
  respects (λ _, tt) not_frame_call (PollEvents env evs).
Proof.
  induction evs as [|e evs IH]; cbn [PollEvents]; respects_tac; try exact IH.
  eapply respects_calls; [apply handler_call_not_frame|apply dispatch_emits].
Qed.

Lemma ensure_frame_limit_frame w :
  List.filter is_frame_call (emitted w (ensure_frame_limit env w).2)
  = [EnsureFrameLimit].
Proof.
  unfold ensure_frame_limit. unfold bind at 1. cbn [call].
  match goal with
  | |- context [bind ?m ?k ?w1] =>
      assert (respects (λ _, tt) not_frame_call (bind m k)) as Hr
  end.
  { respects_tac. apply PollEvents_no_frame. }
  destruct (Hr (log_call EnsureFrameLimit w)) as (_ & tr & Hc & Ht).
  erewrite emitted_app; [|rewrite Hc; cbn; rewrite <- app_assoc; reflexivity].
  cbn. by rewrite (not_frame_filter _ Ht).
Qed.

Lemma drain_and_render_unfold w :
  drain_and_render env w
  = match drain env (_to_do (self w)) w with
    | (Ok _, w1) => render env (clear_to_do w1)
    | (Raise e, w1) => (Raise e, w1)
    end.
Proof.
  unfold drain_and_render, bind at 1. cbn [get_self]. unfold bind at 1.
  by destruct (drain env (_to_do (self w)) w) as [[[]|e] w1].
Qed.

Lemma drain_and_render_frame w :
  List.filter is_frame_call (emitted w (drain_and_render env w).2) = [RendererRender]
  ∨ (List.filter is_frame_call (emitted w (drain_and_render env w).2) = []
     ∧ ∃ e, (drain_and_render env w).1 = Raise e).
Proof.
  rewrite drain_and_render_unfold.
  destruct (drain_respects (_to_do (self w)) w) as (_ & trd & Hcd & Htd).
  assert (List.filter is_frame_call trd = []) as Hfd.
  { apply not_frame_filter. rewrite forallb_forall in Htd |- *.
    intros c Hc. by apply drain_call_not_frame, Htd. }
  destruct (drain env (_to_do (self w)) w) as [[[]|e] w1]; cbn in Hcd;
    cbn [fst snd].
  2: { right. rewrite (emitted_app _ _ _ Hcd). split; [done|by exists e]. }
  unfold render, _gl_update_viewport, clear_to_do. run.
  cbn [set_to_do _viewport_actual _width _height self].
  destruct (_viewport_actual (self w1)); cbn [negb]; run.
  all: repeat match goal with
       | |- context [env_raises env ?hist ?c] =>
           let E := fresh "E" in destruct (env_raises env hist c) eqn:E; cbn
       end.
  all: erewrite emitted_app
         by (cbn; rewrite Hcd, <- ?app_assoc; cbn; reflexivity).
  all: rewrite List.filter_app, Hfd; cbn.
  all: first [by left | right; split; [done|by eexists]].
Qed.

(** X18. [render_loop] never draws two frames without a wait on the frame
    limiter in between, and never waits twice without drawing: among the
    calls of any run of the loop, the waits and the draws alternate,
    starting with a wait, and there are no more of each than iterations. *)
Theorem loop_alternates_wait_and_draw n w :
  ∃ k rest,
    List.filter is_frame_call (emitted w (loop env n w).2) = frames k ++ rest
    ∧ (rest = [] ∨ rest = [EnsureFrameLimit])
    ∧ (k + length rest ≤ n)%nat.
Proof.
  revert w. induction n as [|n IH]; intros w.
  { exists 0%nat, []. cbn. unfold emitted. rewrite drop_ge by done. auto. }
  cbn [loop]. unfold bind at 1. cbn [call]. unfold bind at 1.
  cbn [get_should_close log_call should_close].
  destruct (should_close w).
  { exists 0%nat, []. cbn.
    erewrite emitted_app by (cbn; reflexivity). cbn. split; [done|].
    split; [auto|lia]. }
  set (w0 := log_call WindowShouldClose w).
  unfold bind at 1, try.
  pose proof (ensure_frame_limit_frame w0) as Hf.
  assert (∃ tre, calls (ensure_frame_limit env w0).2 = calls w0 ++ tre)
    as [tre Hce].
  { destruct (ensure_frame_limit_respects w0) as (_ & tr & Hc & _). by exists tr. }
  rewrite (emitted_app _ _ _ Hce) in Hf.
  destruct (ensure_frame_limit env w0) as [[[]|e] w1]; cbn in Hce.
  2: { exists 0%nat, [EnsureFrameLimit].
       assert (List.filter is_frame_call (emitted w w1) = [EnsureFrameLimit]) as Hw1.
       { erewrite emitted_app; [|rewrite Hce; cbn; rewrite <- app_assoc; reflexivity].
         cbn. exact Hf. }
       destruct e; cbn; (split; [|split; [auto|lia]]); try exact Hw1.
       erewrite emitted_app;
         [|cbn; rewrite Hce; cbn; rewrite <- !app_assoc; reflexivity].
       cbn. rewrite List.filter_app, Hf. done. }
  unfold bind at 1.
  pose proof (drain_and_render_frame w1) as Hd.
  assert (∃ trd, calls (drain_and_render env w1).2 = calls w1 ++ trd)
    as [trd Hcd].
  { destruct (drain_and_render_respects w1) as (_ & tr & Hc & _). by exists tr. }
  rewrite (emitted_app _ _ _ Hcd) in Hd.
  destruct (drain_and_render env w1) as [[[]|e] w2]; cbn in Hcd, Hd.
  - destruct Hd as [Hd|[_ [e [=]]]].
    destruct (IH w2) as (k & rest & Hk & Hrest & Hlen).
    assert (∃ trl, calls (loop env n w2).2 = calls w2 ++ trl) as [trl Hcl].
    { destruct (loop_respects n w2) as (_ & tr & Hc & _). by exists tr. }
    rewrite (emitted_app _ _ _ Hcl) in Hk.
    exists (S k), rest. split; [|split; [done|lia]].
    erewrite emitted_app;
      [|rewrite Hcl, Hcd, Hce; cbn; rewrite <- !app_assoc; reflexivity].
    cbn. rewrite !List.filter_app, Hf, Hd, Hk. done.
  - erewrite emitted_app;
      [|cbn; rewrite Hcd, Hce; cbn; rewrite <- !app_assoc; reflexivity].
    cbn. rewrite !List.filter_app, Hf.
    destruct Hd as [Hd|[Hd _]]; rewrite Hd.
    + exists 1%nat, []. cbn. split; [done|]. split; [auto|lia].
    + exists 0%nat, [EnsureFrameLimit]. cbn. split; [done|]. split; [auto|lia].
Qed.

(** *** Picking the point under the cursor *)


(** *** A new frame *)

(** X20. A frame constructed with a non-zero width is not initialized, has
    empty input state, an empty queue and a stale viewport: whatever
    callbacks, actions and tasks run first, its first [render()] starts by
    setting the viewport to the constructor's size. *)
Theorem new_frame_first_render_sets_viewport width height title camera_mode ops w w2 :
  __init__ (num := num) width height title camera_mode = Ok w →
  forallb is_quiet ops = true →
  w2 = run_ops env ops w →
  _initialized (self w) = false
  ∧ _last_mouse_xy (self w) = None
  ∧ _mouse_buttons_down (self w) = ∅
  ∧ _keyboard_buttons_down (self w) = ∅
  ∧ _to_do (self w) = []
  ∧ aspect (_camera (self w)) = int_truediv height width
  ∧ ∃ rest, emitted w2 (render env w2).2 = GlViewport 0 0 width height :: rest.
Proof.
  unfold __init__, truediv. destruct (decide (width = 0)); [done|].
  intros [= <-] Hq ->. cbn [self _initialized _last_mouse_xy _mouse_buttons_down
                            _keyboard_buttons_down _to_do _camera aspect].
  repeat (split; [reflexivity|]).
  match goal with |- context [run_ops env ops ?w0] => set (w := w0) end.
  destruct (run_ops_quiet ops w Hq) as (Hp & _).
  set (w2 := run_ops env ops w) in *.
  unfold frame_of in Hp. cbn in Hp. injection Hp as Hw2 Hh2 Hv2 _.
  unfold render, _gl_update_viewport. run. rewrite Hv2, Hw2, Hh2.
  cbn -[emitted].
  repeat match goal with
  | |- context [env_raises env ?hist ?c] =>
      destruct (env_raises env hist c); cbn -[emitted]
  end;
    eexists; apply emitted_app; cbn; rewrite <- ?app_assoc; cbn; reflexivity.
Qed.

(** *** Dropped files *)

Lemma read_and_register_spec path w :
  read_and_register env path w
  = match env_raises env (calls w ++ [Log DEBUG (MsgReadingData path)])
            (LoadPly path) with
    | None =>
      (Ok tt, with_calls w [Log DEBUG (MsgReadingData path); LoadPly path;
                            SceneAddRenderable path;
                            Log DEBUG (MsgDataLoaded path)])
    | Some e =>
      (Raise e, with_calls w [Log DEBUG (MsgReadingData path); LoadPly path])
    end.
Proof.
  unfold read_and_register, add_points_cloud. run. cbn [calls log_call].
  destruct (env_raises env _ (LoadPly path)); cbn;
    unfold with_calls, log_call; cbn; by rewrite <- ?app_assoc.
Qed.

Lemma spawned_drop_calls (decoded : list str) :
  spawned (flat_map (@drop_calls num) decoded)
  = ReadAndRegister <$> List.filter is_ply decoded.
Proof.
  induction decoded as [|d decoded IH]; [done|].
  cbn [flat_map List.filter]. unfold spawned in *. rewrite omap_app, IH.
  unfold drop_calls, is_ply. by destruct (endswith d dot_ply).
Qed.

Lemma run_load_tasks (ps : list str) w :
  ∃ tr, calls (run_ops env (OpTask <$> (ReadAndRegister <$> ps)) w) = calls w ++ tr
        ∧ self (run_ops env (OpTask <$> (ReadAndRegister <$> ps)) w) = self w
        ∧ scene_additions tr `sublist_of` ps
        ∧ ((∀ h p, env_raises env h (LoadPly p) = None) → scene_additions tr = ps)
        ∧ ¬ In FpsUpdate tr.
Proof.
  revert w. induction ps as [|p ps IH]; intros w.
  - exists []. cbn. rewrite app_nil_r. repeat split; try done. by intros [].
  - cbn [fmap list_fmap run_ops run_op run_task].
    rewrite read_and_register_spec.
    destruct (env_raises env _ (LoadPly p)) as [e|] eqn:Hr; cbn [snd].
    + destruct (IH (with_calls w [Log DEBUG (MsgReadingData p); LoadPly p]))
        as (tr & Hc & Hs & Hsub & Hall & Hno).
      exists ([Log DEBUG (MsgReadingData p); LoadPly p] ++ tr).
      split; [rewrite Hc; cbn; by rewrite <- app_assoc|].
      split; [by rewrite Hs|]. split; [by apply sublist_cons|]. split.
      * intros Hn. by rewrite Hn in Hr.
      * cbn. intros [[=]|[[=]|Hin]]. by apply Hno.
    + destruct (IH (with_calls w [Log DEBUG (MsgReadingData p); LoadPly p;
                                  SceneAddRenderable p;
                                  Log DEBUG (MsgDataLoaded p)]))
        as (tr & Hc & Hs & Hsub & Hall & Hno).
      exists ([Log DEBUG (MsgReadingData p); LoadPly p; SceneAddRenderable p;
               Log DEBUG (MsgDataLoaded p)] ++ tr).
      split; [rewrite Hc; cbn; by rewrite <- app_assoc|].
      split; [by rewrite Hs|]. split; [by apply sublist_skip|]. split.
      * intros Hn. cbn. f_equal. by apply Hall.
      * cbn. intros [[=]|[[=]|[[=]|[[=]|Hin]]]]. by apply Hno.
Qed.

(** X21. A drop of paths that all decode starts one loading task per
    ['.ply'] path, in drop order.  When these tasks then run one after
    another, a cloud is added to the scene for each load that goes through
    and for no other path: always a sub-sequence of the dropped ['.ply']
    paths, and all of them when no load raises.  Neither the drop nor the
    loads change the object or call [update()]. *)
Theorem dropped_clouds_join_the_scene w paths decoded w1 w2 :
  Forall2 (λ path d, decode_utf8 path = Some d) paths decoded →
  w1 = (_on_drop paths w).2 →
  w2 = run_ops env (OpTask <$> spawned (emitted w w1)) w1 →
  spawned (emitted w w1) = ReadAndRegister <$> List.filter is_ply decoded
  ∧ scene_additions (emitted w1 w2) `sublist_of` List.filter is_ply decoded
  ∧ ((∀ h p, env_raises env h (LoadPly p) = None) →
     scene_additions (emitted w1 w2) = List.filter is_ply decoded)
  ∧ self w2 = self w
  ∧ ¬ In FpsUpdate (emitted w w2).
Proof.
  intros Hd -> ->. rewrite (_on_drop_spec _ _ _ Hd). cbn [snd].
  rewrite (emitted_app w (with_calls w _) (flat_map drop_calls decoded)) by done.
  rewrite spawned_drop_calls. split; [done|].
  destruct (run_load_tasks (List.filter is_ply decoded)
              (with_calls w (flat_map drop_calls decoded)))
    as (tr & Hc & Hs & Hsub & Hall & Hno).
  rewrite (emitted_app _ _ tr) by exact Hc.
  split; [exact Hsub|]. split; [exact Hall|]. split; [by rewrite Hs|].
  rewrite (emitted_app w _ (flat_map drop_calls decoded ++ tr))
    by (rewrite Hc; cbn; by rewrite <- app_assoc).
  intros [Hin|Hin]%in_app_or; [|by apply Hno].
  apply in_flat_map in Hin as (d & _ & Hin). unfold drop_calls in Hin.
  destruct (endswith d dot_ply); cbn in Hin;
    repeat destruct Hin as [Hin|Hin]; try discriminate Hin; exact Hin.
Qed.

(** *** The cursor probe *)

(** X22. The cursor probe started by left alt only reads: it never changes
    the object, calls no camera method and no [update()].  It logs a
    position only when a cursor position is recorded and the depth read
    goes through with a sample other than 1.0, and then it returns; started
    before any cursor move, it raises [TypeError] having called nothing. *)
Theorem cursor_probe_only_reads w :
  self (determine_and_print env w).2 = self w
  ∧ forallb not_camera_call (emitted w (determine_and_print env w).2) = true
  ∧ ¬ In FpsUpdate (emitted w (determine_and_print env w).2)
  ∧ (List.filter is_position_log (emitted w (determine_and_print env w).2) ≠ [] →
     (determine_and_print env w).1 = Ok tt
     ∧ ∃ x y ix iy,
         _last_mouse_xy (self w) = Some (x, y)
         ∧ to_int x = Ok ix ∧ to_int y = Ok iy
         ∧ env_raises env (calls w) (GlReadPixels ix iy) = None
         ∧ feqb (env_depth env (calls w ++ [GlReadPixels ix iy])) (of_int 1) = false)
  ∧ (_last_mouse_xy (self w) = None →
     determine_and_print env w = (Raise TypeError, w)).
Proof.
  unfold determine_and_print, _determine_cursor_position. run.
  destruct (_last_mouse_xy (self w)) as [[x y]|] eqn:Hl; run.
  2: { unfold emitted. rewrite drop_ge by done. cbn.
       repeat split; try done. by intros []. }
  destruct (to_int x) as [ix|ex] eqn:Hx; run.
  2: { unfold emitted. rewrite drop_ge by done. cbn.
       repeat split; try done. by intros []. }
  destruct (to_int y) as [iy|ey] eqn:Hy; run.
  2: { unfold emitted. rewrite drop_ge by done. cbn.
       repeat split; try done. by intros []. }
  destruct (env_raises env (calls w) (GlReadPixels ix iy)) as [e|] eqn:Hr; cbn.
  { erewrite emitted_app by (cbn; reflexivity). cbn.
    repeat split; try done. intros [[=]|[]]. }
  destruct (feqb (env_depth env (calls w ++ [GlReadPixels ix iy])) (of_int 1))
    eqn:Hz; run.
  { erewrite emitted_app by (cbn; rewrite <- ?app_assoc; cbn; reflexivity).
    cbn. repeat split; try done. intros [[=]|[]]. }
  cbn [calls log_call].
  destruct (env_raises env _ (HomoTranslateInv _)) as [e|] eqn:Hu; cbn.
  { erewrite emitted_app by (cbn; rewrite <- ?app_assoc; cbn; reflexivity).
    cbn. repeat split; try done. intros [[=]|[[=]|[[=]|[]]]]. }
  erewrite emitted_app by (cbn; rewrite <- ?app_assoc; cbn; reflexivity).
  cbn. repeat split; try done.
  - intros [[=]|[[=]|[[=]|[[=]|[]]]]].
  - by exists x, y, ix, iy.
Qed.

End Properties.

(** ** The model at work *)

Example decode_scan_ply :
  decode_utf8 [115; 46; 112; 108; 121]%N = Some [115; 46; 112; 108; 121]%N.
Proof. reflexivity. Qed.

Example decode_two_byte : decode_utf8 [195; 169]%N = Some [233]%N.
Proof. reflexivity. Qed.

Example decode_stray_continuation : decode_utf8 [97; 128]%N = None.
Proof. reflexivity. Qed.

Example endswith_ply : endswith [115; 46; 112; 108; 121]%N dot_ply = true.
Proof. reflexivity. Qed.

Example endswith_short : endswith [108; 121]%N dot_ply = false.
Proof. reflexivity. Qed.

Example new_frame : __init__ 640 480 "Frame3D" perspective = Ok fresh.
Proof. vm_compute. reflexivity. Qed.

Example new_frame_zero_width :
  __init__ (num := float) 0 480 "Frame3D" perspective = Raise ZeroDivisionError.
Proof. reflexivity. Qed.

Example float_to_int_truncates :
  float_to_int 380.75%float = Ok 380 ∧ float_to_int (-2.5)%float = Ok (-2).
Proof. split; vm_compute; reflexivity. Qed.

(** One full run: [init], a poll that queues a focus action and a
    screenshot, the drain, the render, and a second poll that is
    cancelled. *)
Example one_frame_then_close :
  let env :=
    scripted
      [([EvCursorPos 320.5%float 239.5%float;
         EvMouseButton glfw.MOUSE_BUTTON_LEFT glfw.PRESS 0;
         EvKey glfw.KEY_S 0 glfw.PRESS 0], Resumed);
       ([EvClose], Cancelled)]
      nothing_fails true 0.5%float in
  let r := render_loop env 5 fresh in
  r.1 = Ok Stopped
  ∧ emitted fresh r.2
    = registrations ++
      [InitGlContext; RendererInit;
       WindowShouldClose; EnsureFrameLimit;
       DoubleClickOnPressed 0; FpsUpdate; FpsUpdate;
       AwaitDeferred CameraLookAtCursor;
       GlReadPixels 320 240; CameraGetMvpMatrix;
       HomoTranslateInv (0, 0, 0)%float;
       CameraSetTarget (0, 0, 0)%float;
       Log DEBUG (MsgDoubleClickOnPoint (0, 0, 0)%float);
       DeferredDone CameraLookAtCursor;
       AwaitDeferred MakeScreenshotAndSave;
       Log INFO (MsgMakingScreenshot 2048 1536);
       ImageRendererRender 2048 1536;
       Log INFO (MsgSavingScreenshot (Some 2));
       SaveImage (Some 2) png; SaveImage (Some 2) depth_png;
       ImageRendererRelease;
       DeferredDone MakeScreenshotAndSave;
       GlViewport 0 0 640 480; RendererRender; SwapBuffers;
       WindowShouldClose; EnsureFrameLimit; FpsStop;
       Log INFO (MsgStopped "Frame3D")]
  ∧ _to_do (self r.2) = [].
Proof. vm_compute. repeat split. Qed.

(** ** The theorems at concrete frames *)


Lemma cancellation_witness :
  loop closing 1 started
  = (Ok Stopped,
     with_calls
       (ensure_frame_limit closing (with_calls started [WindowShouldClose])).2
       [Log INFO (MsgStopped "Frame3D")]).
Proof.
  refine (proj1 (cancellation_stops_the_loop closing started _ 0 _ _)).
  - reflexivity.
  - vm_compute. reflexivity.
Defined.

Lemma right_drag_witness :
  _on_mouse_move 260%float 20%float dragging
  = (Ok tt,
     with_calls
       (with_self dragging
          (set_last_mouse_xy (Some (260, 460)%float) (self dragging)))
       [CameraMove (-0.25)%float (-0.125)%float; FpsUpdate]).
Proof.
  refine (eq_trans
            (right_drag_moves_by_width dragging 260%float 20%float
               100%float 380%float _ _) _).
  - apply (bool_decide_unpack
             (glfw.MOUSE_BUTTON_RIGHT ∈ _mouse_buttons_down (self dragging))).
    vm_compute. exact I.
  - vm_compute. reflexivity.
  - vm_compute. reflexivity.
Defined.

Lemma resize_witness :
  let w1 := (_on_resize 800 600 started).2 in
  let w2 := run_ops quiet [OpEvent (EvCursorPos 10%float 10%float)] w1 in
  let w3 := (render quiet w2).2 in
  let w4 := run_ops quiet [OpRender; OpEvent (EvScroll 0%float 1%float); OpRender] w3 in
  aspect (_camera (self w1)) = 0.75%float
  ∧ List.filter is_viewport_call (emitted started w4) = [GlViewport 0 0 800 600].
Proof.
  cbv zeta.
  destruct (resize_updates_viewport_once quiet started 800 600
              [OpEvent (EvCursorPos 10%float 10%float)]
              [OpRender; OpEvent (EvScroll 0%float 1%float); OpRender]
              _ _ _ _ eq_refl eq_refl eq_refl eq_refl eq_refl eq_refl)
    as (_ & _ & _ & Ha & _).
  destruct Ha as [_ Ha]; [done|].
  split; [rewrite Ha; vm_compute; reflexivity|vm_compute; reflexivity].
Defined.


Lemma init_twice_witness :
  init quiet started = (Raise AssertionError, started)
  ∧ init quiet fresh
    = (Ok tt, with_calls (with_self fresh (set_initialized true (self fresh)))
                (registrations ++ [InitGlContext; RendererInit])).
Proof.
  destruct (init_only_once quiet fresh) as [Hagain Hfirst]. split.
  - apply Hagain. vm_compute. reflexivity.
  - apply Hfirst; reflexivity.
Defined.

Lemma far_plane_witness :
  _camera_look_at_cursor quiet dragging
  = (Ok tt, with_calls dragging
              [GlReadPixels 100 380; Log DEBUG MsgDoubleClickOnEmptyPixel]).
Proof.
  refine (proj2 (far_plane_depth_is_no_hit quiet dragging 100%float 380%float
                   100 380 _ _ _ _ _)).
  all: vm_compute; reflexivity.
Defined.

Lemma render_loop_initializes_witness :
  render_loop closing 3 fresh = bind (init closing) (λ _, loop closing 3) fresh.
Proof.
  refine (proj1 (render_loop_initializes_first closing fresh 3 _)).
  reflexivity.
Defined.

Lemma release_of_unpressed_witness :
  _on_mouse_button quiet glfw.MOUSE_BUTTON_LEFT glfw.RELEASE 0 started
  = (Ok tt, started).
Proof.
  refine (proj1 (release_of_unpressed_changes_nothing quiet started
                   glfw.MOUSE_BUTTON_LEFT glfw.KEY_LEFT_ALT 0 0 0 _ _)).
  - apply not_elem_of_empty.
  - reflexivity.
Defined.

(** ** Edges of the statements above *)

(** A focus action queued before the cursor ever moved raises [TypeError]
    where it unpacks [_last_mouse_xy]; the exception leaves [render_loop],
    the queue is not emptied and nothing is rendered. *)
Example focus_without_cursor_position :
  let env :=
    scripted [([EvMouseButton glfw.MOUSE_BUTTON_LEFT glfw.PRESS 0], Resumed)]
      nothing_fails true 0.5%float in
  let r := loop env 2 started in
  r.1 = Raise TypeError
  ∧ _to_do (self r.2) = [CameraLookAtCursor]
  ∧ List.filter is_render_call (emitted started r.2) = [].
Proof. vm_compute. repeat split. Qed.

(** A path that is not UTF-8 makes [_on_drop] raise at that path; the paths
    after it are not looked at. *)
Example drop_of_undecodable_path :
  _on_drop [[255; 46; 112; 108; 121]; [97; 46; 112; 108; 121]]%N started
  = (Raise UnicodeDecodeError, started).
Proof. reflexivity. Qed.

(** A resize to width 0 stores the size and stales the viewport, then raises
    at the division; the aspect keeps its old value and no redraw is
    requested. *)
Example resize_to_zero_width :
  let r := _on_resize 0 600 started in
  r.1 = Raise ZeroDivisionError
  ∧ (_width (self r.2), _height (self r.2)) = (0, 600)
  ∧ aspect (_camera (self r.2)) = 0.75%float
  ∧ emitted started r.2 = [Log DEBUG (MsgResize 0 600)].
Proof. vm_compute. repeat split. Qed.


Lemma undecodable_path_witness :
  _on_drop [[97; 46; 112; 108; 121]; [255; 46; 112; 108; 121];
            [99; 46; 112; 108; 121]]%N started
  = (Raise UnicodeDecodeError,
     with_calls started
       [AsyncioAsync (ReadAndRegister [97; 46; 112; 108; 121]%N);
        WrapExc (ReadAndRegister [97; 46; 112; 108; 121]%N)]).
Proof.
  refine (undecodable_path_ends_the_drop started
            [[97; 46; 112; 108; 121]]%N [[97; 46; 112; 108; 121]]%N
            [255; 46; 112; 108; 121]%N [[99; 46; 112; 108; 121]]%N _ _).
  - repeat constructor.
  - reflexivity.
Defined.

Lemma key_round_trip_witness :
  _is_button_down glfw.KEY_LEFT_ALT 0
    (self (_on_keyboard glfw.KEY_LEFT_ALT 64 glfw.PRESS 0 started).2) = true
  ∧ _keyboard_buttons_down
      (self (_on_keyboard glfw.KEY_LEFT_ALT 64 glfw.RELEASE 4
               (_on_keyboard glfw.KEY_LEFT_ALT 64 glfw.PRESS 0 started).2).2)
    = ∅.
Proof.
  destruct (key_press_release_round_trip started glfw.KEY_LEFT_ALT 64 64 0 4
              _ _ ltac:(done) eq_refl eq_refl) as (_ & Hdown & _ & _ & Hback).
  split; [apply Hdown|apply Hback; reflexivity].
Defined.

Lemma mouse_round_trip_witness :
  _mouse_buttons_down
    (self (_on_mouse_button quiet glfw.MOUSE_BUTTON_RIGHT glfw.PRESS 0 started).2)
  = {[glfw.MOUSE_BUTTON_RIGHT]} ∪ ∅
  ∧ _mouse_buttons_down
      (self (_on_mouse_button quiet glfw.MOUSE_BUTTON_RIGHT glfw.RELEASE 0
               (_on_mouse_button quiet glfw.MOUSE_BUTTON_RIGHT glfw.PRESS 0
                  started).2).2)
    = ∅.
Proof.
  destruct (mouse_press_release_round_trip quiet started glfw.MOUSE_BUTTON_RIGHT
              0 0 _ _ eq_refl eq_refl) as (_ & _ & Hin & _ & _ & Hback).
  split; [exact Hin|apply Hback, not_elem_of_empty].
Defined.

Lemma projection_key_witness :
  mode (_camera (self (_on_keyboard glfw.KEY_P 33 glfw.PRESS 0 started).2)) = ortho
  ∧ _camera
      (self (_on_keyboard glfw.KEY_P 33 glfw.PRESS 0
               (_on_keyboard glfw.KEY_P 33 glfw.PRESS 0 started).2).2)
    = _camera (self started).
Proof.
  destruct (projection_key_toggles started 33 33 0 0 _ _ eq_refl eq_refl)
    as (_ & Hmode & _ & _ & Hback).
  split; [exact Hmode|exact Hback].
Defined.

Lemma idle_cursor_move_witness :
  _on_mouse_move 100%float 100%float started
  = (Ok tt,
     with_self started
       (set_last_mouse_xy (Some (100, 380)%float) (self started))).
Proof.
  refine (eq_trans (idle_cursor_move_only_records started 100%float 100%float _) _).
  - left. reflexivity.
  - vm_compute. reflexivity.
Defined.

Lemma left_drag_witness :
  _on_mouse_move 130%float 90%float rotating
  = (Ok tt,
     with_calls
       (with_self rotating
          (set_last_mouse_xy (Some (130, 390)%float) (self rotating)))
       [CameraRotate 30%float 10%float; FpsUpdate]).
Proof.
  refine (eq_trans
            (left_drag_rotates_by_pixels rotating 130%float 90%float
               100%float 380%float _ _ _) _).
  - apply (bool_decide_unpack
             (glfw.MOUSE_BUTTON_LEFT ∈ _mouse_buttons_down (self rotating))).
    vm_compute. exact I.
  - apply (bool_decide_unpack
             (glfw.MOUSE_BUTTON_RIGHT ∉ _mouse_buttons_down (self rotating))).
    vm_compute. exact I.
  - vm_compute. reflexivity.
  - vm_compute. reflexivity.
Defined.

Lemma close_request_witness :
  loop quiet 3 (run_ops quiet [OpRender] (dispatch quiet EvClose started).2)
  = (Ok Closed,
     with_calls (run_ops quiet [OpRender] (dispatch quiet EvClose started).2)
       [WindowShouldClose]).
Proof.
  refine (proj2 (close_request_is_final quiet started 0 0 [OpRender] 2
                   EvClose _ _ eq_refl)).
  right. reflexivity.
Defined.

Lemma key_events_witness :
  emitted subscribed (_on_keyboard 65 38 glfw.PRESS 0 subscribed).2
  = [KeyboardCallback "recorder" 1 65 38 glfw.PRESS 0;
     KeyboardCallback "viewer" 2 65 38 glfw.PRESS 0].
Proof.
  destruct (key_events_reach_subscribers quiet subscribed 65 38 glfw.PRESS 0)
    as (_ & _ & _); [reflexivity|].
  vm_compute. reflexivity.
Defined.



Lemma new_frame_witness :
  ∃ rest, emitted fresh (render quiet fresh).2 = GlViewport 0 0 640 480 :: rest.
Proof.
  refine (proj2 (proj2 (proj2 (proj2 (proj2 (proj2
            (new_frame_first_render_sets_viewport quiet 640 480 "Frame3D"
               perspective [] fresh _ _ _ _))))))).
  - vm_compute. reflexivity.
  - reflexivity.
  - reflexivity.
Defined.

Lemma dropped_clouds_witness :
  scene_additions
    (emitted
       (_on_drop [[97; 46; 112; 108; 121]; [98; 46; 116; 120; 116];
                  [99; 46; 112; 108; 121]]%N started).2
       (run_ops quiet
          [OpTask (ReadAndRegister [97; 46; 112; 108; 121]%N);
           OpTask (ReadAndRegister [99; 46; 112; 108; 121]%N)]
          (_on_drop [[97; 46; 112; 108; 121]; [98; 46; 116; 120; 116];
                     [99; 46; 112; 108; 121]]%N started).2))
  = [[97; 46; 112; 108; 121]; [99; 46; 112; 108; 121]]%N.
Proof.
  destruct (dropped_clouds_join_the_scene quiet started
              [[97; 46; 112; 108; 121]; [98; 46; 116; 120; 116];
               [99; 46; 112; 108; 121]]%N
              [[97; 46; 112; 108; 121]; [98; 46; 116; 120; 116];
               [99; 46; 112; 108; 121]]%N _ _
              ltac:(repeat constructor) eq_refl eq_refl)
    as (_ & _ & Hall & _).
  exact (Hall (λ _ _, eq_refl)).
Defined.

Lemma cursor_probe_witness :
  (determine_and_print busy rotating).1 = Ok tt.
Proof.
  destruct (cursor_probe_only_reads busy rotating) as (_ & _ & _ & Hlog & _).
  apply Hlog. vm_compute. discriminate.
Defined.
